(** * Retrieval and index management of the Kenyan RAG pipeline

    A shallow embedding of [src/cache.py], [src/document_processor.py],
    [src/web_search.py], [src/config.py], [src/vector_store.py],
    [src/storage_manager.py] and [src/agent.py].

    The Python code is glue over external collaborators (the FAISS wrapper,
    the text splitter, the web search provider, [hashlib], [urllib], the
    file system).  Collaborators are interfaces here: records of operations
    the methods are parameterised by.  Reference instances of the interfaces
    are given at the end of the definitions so that every method can be run
    on concrete inputs. *)

From stdpp Require Import gmap strings list fin_maps pretty.
From Stdlib Require Import ZArith QArith Ascii.

Local Open Scope string_scope.
Local Close Scope list_scope.
Local Open Scope list_scope.
Local Open Scope Z_scope.

(** ** Python values, exceptions and results *)

(** An exception object: its class name and [str(e)]. *)
Record exn := PyExc { exn_class : string; exn_msg : string }.

(** The outcome of a call that may raise. *)
Inductive result (A : Type) : Type :=
| Ok (a : A)
| Raise (e : exn).
Arguments Ok {A} a.
Arguments Raise {A} e.

Definition raises {A} (r : result A) : Prop :=
  match r with Ok _ => False | Raise _ => True end.

#[global] Instance result_ret : MRet result := @Ok.
#[global] Instance result_bind : MBind result := fun A B f r =>
  match r with Ok a => f a | Raise e => Raise e end.

(** [try: body except Exception as e: raise Exception(f"<prefix>{str(e)}")]. *)
Definition reraise {A} (prefix : string) (body : result A) : result A :=
  match body with
  | Ok a => Ok a
  | Raise e => Raise (PyExc "Exception" (prefix +:+ exn_msg e))
  end.

(** The values stored in document metadata. *)
Inductive PyVal :=
| VInt (n : Z)
| VStr (s : string).

#[global] Instance PyVal_eq_dec : EqDecision PyVal.
Proof. solve_decision. Defined.

Abbreviation Metadata := (gmap string PyVal).

(** [langchain.schema.Document]. *)
Record Document := mkDocument {
  page_content : string;
  metadata : Metadata;
}.

#[global] Instance Document_eq_dec : EqDecision Document.
Proof. solve_decision. Defined.

(** [len(s)] as a Python int.  Strings are byte strings here, so this is
    Python's [len] on ASCII text. *)
Definition len (s : string) : Z := Z.of_nat (String.length s).

(** [s.endswith(suffix)]. *)
Definition endswith (s suffix : string) : bool :=
  let n := String.length s in
  let m := String.length suffix in
  (m <=? n)%nat && bool_decide (String.substring (n - m) m s = suffix).

(** ** config.py *)

Module Config.
Definition MAX_SEARCH_RESULTS : Z := 5.
Definition CHUNK_SIZE : Z := 1000.
Definition CHUNK_OVERLAP : Z := 200.
Definition KENYA_DOMAINS : list string :=
  [".ke"; "co.ke"; "ac.ke"; "go.ke"; "or.ke"].
End Config.

(** ** cache.py *)

Module Cache.
Section Cache.
(** The cached values ([Any] in the source). *)
Context {V : Type}.

(** [diskcache.Cache]: every key holds a value and its expiry instant
    ([time.time() + expire], in seconds). *)
Record Cache := mkCache {
  cache : gmap string (V * Z);
  ttl : Z;
}.

(** [Cache.__init__]: an empty store, one hour default TTL. *)
Definition init : Cache := {| cache := ∅; ttl := 3600 |}.

(** [diskcache.Cache.get(key)] at instant [now]: a key is served while
    its expiry lies ahead; absent and expired keys give [None]. *)
Definition get (self : Cache) (key : string) (now : Z) : option V :=
  match cache self !! key with
  | Some (v, expire_time) => if now <? expire_time then Some v else None
  | None => None
  end.

(** [ttl or self.ttl]: Python's [or] keeps the left operand when it is
    truthy; [None] and [0] are falsy. *)
Definition ttl_or (t : option Z) (default : Z) : Z :=
  match t with
  | None => default
  | Some n => if n =? 0 then default else n
  end.

(** [Cache.set(key, value, ttl=None)] at instant [now]. *)
Definition set (self : Cache) (key : string) (value : V) (t : option Z)
    (now : Z) : Cache :=
  {| cache := <[key := (value, now + ttl_or t (ttl self))]> (cache self);
     ttl := ttl self |}.

(** [Cache.delete(key)]. *)
Definition delete (self : Cache) (key : string) : Cache :=
  {| cache := base.delete key (cache self); ttl := ttl self |}.

(** [self.cache.clear()] as the vector store calls it. *)
Definition clear (self : Cache) : Cache :=
  {| cache := ∅; ttl := ttl self |}.
End Cache.
Arguments Cache V : clear implicits.
End Cache.

(** ** document_processor.py *)

Module DocumentProcessor.

(** The splitter object held by the processor; only [split_documents] is
    called.  It returns fresh [Document]s (no two chunks share a metadata
    dict). *)
Record TextSplitter := mkTextSplitter {
  split_documents : list Document -> result (list Document);
}.

Record DocumentProcessor := mkDocumentProcessor {
  text_splitter : TextSplitter;
}.

Record ChunkStats := mkChunkStats {
  total_chunks : Z;
  average_chunk_size : Q;
  largest_chunk : Z;
  smallest_chunk : Z;
}.

(** [a / b] on ints. *)
Definition truediv (a b : Z) : result Q :=
  if b =? 0 then Raise (PyExc "ZeroDivisionError" "division by zero")
  else Ok (a # Z.to_pos b)%Q.

(** [max(...)] and [min(...)] over a generator of ints. *)
Definition py_max (xs : list Z) : result Z :=
  match xs with
  | [] => Raise (PyExc "ValueError" "max() arg is an empty sequence")
  | x :: rest => Ok (foldl Z.max x rest)
  end.

Definition py_min (xs : list Z) : result Z :=
  match xs with
  | [] => Raise (PyExc "ValueError" "min() arg is an empty sequence")
  | x :: rest => Ok (foldl Z.min x rest)
  end.

Definition py_sum (xs : list Z) : Z := foldl Z.add 0 xs.

Section DocumentProcessor.
(** [RecursiveCharacterTextSplitter(chunk_size=..., chunk_overlap=...,
    length_function=len, add_start_index=True)]. *)
Variable RecursiveCharacterTextSplitter : Z -> Z -> result TextSplitter.
(** [hashlib.sha256(content.encode()).hexdigest()]. *)
Variable sha256_hexdigest : string -> string.

(** [DocumentProcessor.__init__(chunk_size=1000, chunk_overlap=200)]: the
    arguments go to the splitter's constructor unchecked. *)
Definition init (chunk_size chunk_overlap : Z) : result DocumentProcessor :=
  ts ← RecursiveCharacterTextSplitter chunk_size chunk_overlap;
  Ok (mkDocumentProcessor ts).

Definition _generate_chunk_hash (content : string) : string :=
  sha256_hexdigest content.

(** The body of the [for i, chunk in enumerate(chunks)] loop:
    [chunk.metadata.update({...})]. *)
Definition update_metadata (total : Z) (i : nat) (chunk : Document) : Document :=
  mkDocument (page_content chunk)
    (<["total_chunks" := VInt total]>
     (<["chunk_size" := VInt (len (page_content chunk))]>
      (<["chunk_hash" := VStr (_generate_chunk_hash (page_content chunk))]>
       (<["chunk_id" := VInt (Z.of_nat i)]> (metadata chunk))))).

Definition chunk_documents (self : DocumentProcessor)
    (documents : list Document) : result (list Document) :=
  reraise "Error chunking documents: "
    (chunks ← split_documents (text_splitter self) documents;
     Ok (imap (update_metadata (Z.of_nat (length chunks))) chunks)).

(** The dict display is evaluated in order: the count, the average, the
    largest and the smallest size.  The average is a float in the source and
    an exact rational here. *)
Definition get_chunk_stats (chunks : list Document) : result ChunkStats :=
  let sizes := (fun c => len (page_content c)) <$> chunks in
  reraise "Error calculating chunk statistics: "
    (let total := Z.of_nat (length chunks) in
     average ← truediv (py_sum sizes) (Z.of_nat (length chunks));
     largest ← py_max sizes;
     smallest ← py_min sizes;
     Ok (mkChunkStats total average largest smallest)).

End DocumentProcessor.
End DocumentProcessor.

(** ** web_search.py *)

Module KenyanWebSearch.

(** The dicts [search] returns. *)
Record SearchResult := mkSearchResult {
  title : string;
  link : string;
  snippet : string;
}.

(** [r[key]] on a provider hit. *)
Definition getitem (r : gmap string string) (key : string) : result string :=
  match r !! key with
  | Some v => Ok v
  | None => Raise (PyExc "KeyError" ("'" +:+ key +:+ "'"))
  end.

Section KenyanWebSearch.
(** [urlparse(url).netloc] and [str.lower]. *)
Variable urlparse_netloc : string -> string.
Variable str_lower : string -> string.
(** [DDGS().text(query, max_results=n)]. *)
Variable ddgs_text : string -> Z -> result (list (gmap string string)).

Definition is_kenyan_domain (url : string) : bool :=
  let domain := str_lower (urlparse_netloc url) in
  existsb (fun tld => endswith domain tld) Config.KENYA_DOMAINS.

(** One iteration of [for r in self.ddgs.text(...)]. *)
Definition visit (max_results : Z) (results : list SearchResult)
    (r : gmap string string) : result (list SearchResult) :=
  url ← getitem r "link";
  if is_kenyan_domain url && (Z.of_nat (length results) <? max_results)
  then
    t ← getitem r "title";
    l ← getitem r "link";
    b ← getitem r "body";
    Ok (results ++ [mkSearchResult t l b])
  else Ok results.

Fixpoint visit_all (max_results : Z) (results : list SearchResult)
    (hits : list (gmap string string)) : result (list SearchResult) :=
  match hits with
  | [] => Ok results
  | r :: rest =>
      results' ← visit max_results results r;
      visit_all max_results results' rest
  end.

(** [KenyanWebSearch.search(query, max_results=5)]. *)
Definition search (query : string) (max_results : Z)
    : result (list SearchResult) :=
  hits ← ddgs_text query 20;
  visit_all max_results [] hits.

(** What the loop keeps of a hit, and the dict it builds from it. *)
Definition kept (r : gmap string string) : bool :=
  is_kenyan_domain (default "" (r !! "link")).

Definition to_result (r : gmap string string) : SearchResult :=
  mkSearchResult (default "" (r !! "title")) (default "" (r !! "link"))
    (default "" (r !! "body")).


End KenyanWebSearch.

(** A provider hit carries the three keys the loop reads. *)
Definition well_formed (r : gmap string string) : Prop :=
  is_Some (r !! "link") /\ is_Some (r !! "title") /\ is_Some (r !! "body").

End KenyanWebSearch.

(** ** The file system, as [os] and [shutil] show it to the vector store *)

Module OS.

(** Paths are strings; [B] is what a regular file holds. *)
Record FS (B : Type) := mkFS {
  files : gmap string B;
  dirs : gset string;
}.
Arguments mkFS {B} files dirs.
Arguments files {B} f.
Arguments dirs {B} f.

Fixpoint has_slash (p : string) : bool :=
  match p with
  | EmptyString => false
  | String c rest => Ascii.eqb c ("/" : Ascii.ascii) || has_slash rest
  end.

Fixpoint ends_with_slash (p : string) : bool :=
  match p with
  | EmptyString => false
  | String c EmptyString => Ascii.eqb c ("/" : Ascii.ascii)
  | String _ rest => ends_with_slash rest
  end.

Definition starts_with_slash (p : string) : bool :=
  match p with
  | String c _ => Ascii.eqb c ("/" : Ascii.ascii)
  | EmptyString => false
  end.

(** [os.path.join(a, b)]. *)
Definition path_join (a b : string) : string :=
  if starts_with_slash b then b
  else if bool_decide (a = "") || ends_with_slash a then a +:+ b
  else a +:+ "/" +:+ b.

(** What [os.path.join] puts between [a] and a relative component. *)
Definition separator (a : string) : string :=
  if bool_decide (a = "") || ends_with_slash a then "" else "/".

(** [os.path.basename(p)]: what follows the last slash. *)
Fixpoint basename (p : string) : string :=
  match p with
  | EmptyString => ""
  | String c rest =>
      if has_slash rest then basename rest
      else if Ascii.eqb c ("/" : Ascii.ascii) then rest else p
  end.

Section OS.
Context {B : Type}.

(** [os.path.exists(p)]. *)
Definition path_exists (p : string) (fs : FS B) : bool :=
  bool_decide (is_Some (files fs !! p)) || bool_decide (p ∈ dirs fs).

(** [os.makedirs(p, exist_ok=True)]. *)
Definition makedirs (p : string) (fs : FS B) : result (FS B) :=
  if bool_decide (is_Some (files fs !! p))
  then Raise (PyExc "FileExistsError" p)
  else Ok (mkFS (files fs) ({[p]} ∪ dirs fs)).

(** Where [shutil.copy2(src, dst)] writes: inside [dst] when it is a
    directory. *)
Definition copy_target (src dst : string) (fs : FS B) : string :=
  if bool_decide (dst ∈ dirs fs) then path_join dst (basename src) else dst.

(** [shutil.copy2(src, dst)]. *)
Definition copy2 (src dst : string) (fs : FS B) : result (FS B) :=
  match files fs !! src with
  | None => Raise (PyExc "FileNotFoundError" src)
  | Some data =>
      let target := copy_target src dst fs in
      if bool_decide (target = src)
      then Raise (PyExc "SameFileError" src)
      else Ok (mkFS (<[target := data]> (files fs)) (dirs fs))
  end.

(** [os.path.getsize(p)] for a regular file of size [size_of data]. *)
Definition getsize (size_of : B -> Z) (p : string) (fs : FS B) : result Z :=
  match files fs !! p with
  | Some data => Ok (size_of data)
  | None => Raise (PyExc "FileNotFoundError" p)
  end.

End OS.
End OS.

(** ** vector_store.py *)

Module VectorStore.
Import OS.

(** The calls the methods make on their collaborators, in order.  The log
    is ghost state: it records what happened and is never read by the
    code. *)
Inductive Event (B : Type) :=
| EvCopy (src target : string) (data : B)
| EvAddTexts (texts : list string)
| EvDelete (ids : string)
| EvSaveLocal (folder : string)
| EvLoadLocal (folder : string)
| EvCacheClear
| EvPrint (line : string).
Arguments EvCopy {B} src target data.
Arguments EvAddTexts {B} texts.
Arguments EvDelete {B} ids.
Arguments EvSaveLocal {B} folder.
Arguments EvLoadLocal {B} folder.
Arguments EvCacheClear {B}.
Arguments EvPrint {B} line.

(** Reading the log: a completed copy, and anything but a reload of the
    store from disk. *)
Definition is_copy {B} (ev : Event B) : Prop :=
  match ev with EvCopy _ _ _ => True | _ => False end.


(** [langchain_community.vectorstores.FAISS] as the vector store uses it.
    [faiss] is the in-memory object; mutators return the object as the call
    left it together with the outcome. *)
Record Faiss (B : Type) := mkFaiss {
  faiss : Type;
  (** observations: the (docstore id, document) rows in index order,
      [index.ntotal] and [index.d] *)
  documents : faiss -> list (string * Document);
  ntotal : faiss -> Z;
  d : faiss -> Z;
  (** [FAISS.from_texts(texts, embeddings, metadatas=...)] *)
  from_texts : list string -> list Metadata -> result faiss;
  (** [FAISS.load_local(folder, embeddings)] *)
  load_local : string -> FS B -> result faiss;
  (** [store.save_local(folder)] *)
  save_local : faiss -> string -> FS B -> FS B * result unit;
  (** [store.add_texts(texts=..., metadatas=...)] *)
  add_texts : faiss -> list string -> list Metadata -> faiss * result (list string);
  (** [store.delete(document_id)], with the id string the caller passed *)
  delete : faiss -> string -> faiss * result unit;
  (** [store.similarity_search(query, k=k, filter=filter)] *)
  similarity_search_lib :
    faiss -> string -> Z -> option Metadata -> result (list Document);
}.
Arguments faiss {B} f.
Arguments documents {B} f _.
Arguments ntotal {B} f _.
Arguments d {B} f _.
Arguments from_texts {B} f _ _.
Arguments load_local {B} f _ _.
Arguments save_local {B} f _ _ _.
Arguments add_texts {B} f _ _ _.
Arguments delete {B} f _ _.
Arguments similarity_search_lib {B} f _ _ _ _.

(** [self.vector_store.index_to_docstore_id]. *)
Definition index_to_docstore_id {B} (F : Faiss B) (st : faiss F) : list string :=
  (documents F st).*1.

Section VectorStore.
Context {B V : Type} (F : Faiss B).
(** The size in bytes of a file's contents. *)
Variable size_of : B -> Z.
(** [self.doc_processor] with its hash function, and [self.persist_dir]. *)
Variable sha256_hexdigest : string -> string.
Variable doc_processor : DocumentProcessor.DocumentProcessor.
Variable persist_dir : string.

(** Everything a method can read or change: the mutable attributes of
    [self], the disk, the clock and the log. *)
Record State := mkState {
  vector_store : faiss F;
  cache : Cache.Cache V;
  fs : FS B;
  (** [datetime.now().strftime("%Y%m%d_%H%M%S")] *)
  clock : string;
  trace : list (Event B);
}.

Definition index_file : string := path_join persist_dir "faiss_index".
Definition store_file : string := path_join persist_dir "store.pkl".
Definition backup_dir : string := path_join persist_dir "backups".
(** The directory of the backup taken at [timestamp], and the two files in
    it. *)
Definition backup_path (timestamp : string) : string :=
  path_join backup_dir ("backup_" +:+ timestamp).
Definition backup_index (timestamp : string) : string :=
  path_join (backup_path timestamp) "faiss_index".
Definition backup_store (timestamp : string) : string :=
  path_join (backup_path timestamp) "store.pkl".

(** A method body: it runs from a state to a state and either returns or
    raises; what it changed before raising stays changed. *)
Definition M (A : Type) : Type := State -> State * result A.

#[local] Instance M_ret : MRet M := fun A a σ => (σ, Ok a).
#[local] Instance M_bind : MBind M := fun A C f m σ =>
  match m σ with
  | (σ', Ok a) => f a σ'
  | (σ', Raise e) => (σ', Raise e)
  end.

Definition get_state : M State := fun σ => (σ, Ok σ).
Definition raise {A} (e : exn) : M A := fun σ => (σ, Raise e).
Definition lift {A} (r : result A) : M A := fun σ => (σ, r).
Definition log (ev : Event B) : M unit := fun σ =>
  (mkState (vector_store σ) (cache σ) (fs σ) (clock σ) (trace σ ++ [ev]), Ok tt).
Definition set_fs (fs' : FS B) : M unit := fun σ =>
  (mkState (vector_store σ) (cache σ) fs' (clock σ) (trace σ), Ok tt).
Definition set_vector_store (st : faiss F) : M unit := fun σ =>
  (mkState st (cache σ) (fs σ) (clock σ) (trace σ), Ok tt).
Definition set_cache (c : Cache.Cache V) : M unit := fun σ =>
  (mkState (vector_store σ) c (fs σ) (clock σ) (trace σ), Ok tt).

(** [try: body except Exception as e: handler(e)]. *)
Definition try_except {A} (body : M A) (handler : exn -> M A) : M A := fun σ =>
  match body σ with
  | (σ', Ok a) => (σ', Ok a)
  | (σ', Raise e) => handler e σ'
  end.

(** A file-system call. *)
Definition os_call (f : FS B -> result (FS B)) : M unit :=
  σ ← get_state;
  fs' ← lift (f (fs σ));
  set_fs fs'.

(** [shutil.copy2(src, dst)]; a completed copy is logged with the target it
    wrote and the data it wrote there. *)
Definition os_copy2 (src dst : string) : M unit :=
  σ ← get_state;
  os_call (copy2 src dst);;
  match files (fs σ) !! src with
  | Some data => log (EvCopy src (copy_target src dst (fs σ)) data)
  | None => mret tt
  end.

Definition print (line : string) : M unit := log (EvPrint line).

(** [self.cache.cache.clear()]. *)
Definition cache_clear : M unit :=
  σ ← get_state;
  log EvCacheClear;;
  set_cache (Cache.clear (cache σ)).

(** [self.vector_store.save_local(self.persist_dir)]. *)
Definition vs_save_local : M unit :=
  log (EvSaveLocal persist_dir);;
  σ ← get_state;
  let '(fs', r) := save_local F (vector_store σ) persist_dir (fs σ) in
  set_fs fs';;
  lift r.

(** [self.vector_store.add_texts(texts=texts, metadatas=metadatas)]. *)
Definition vs_add_texts (texts : list string) (metadatas : list Metadata)
    : M (list string) :=
  log (EvAddTexts texts);;
  σ ← get_state;
  let '(st', r) := add_texts F (vector_store σ) texts metadatas in
  set_vector_store st';;
  lift r.

(** [self.vector_store.delete(document_id)]. *)
Definition vs_delete (document_id : string) : M unit :=
  log (EvDelete document_id);;
  σ ← get_state;
  let '(st', r) := delete F (vector_store σ) document_id in
  set_vector_store st';;
  lift r.

Definition _create_new_store : M (faiss F) :=
  let dummy_text := ["initialization document"] in
  lift (from_texts F dummy_text [{["source" := VStr "initialization"]}]).

Definition _load_or_create_store : M (faiss F) :=
  os_call (makedirs persist_dir);;
  σ ← get_state;
  if path_exists index_file (fs σ) && path_exists store_file (fs σ)
  then
    try_except
      (log (EvLoadLocal persist_dir);;
       lift (load_local F persist_dir (fs σ)))
      (fun e =>
         print ("Error loading existing store: " +:+ exn_msg e);;
         _create_new_store)
  else _create_new_store.

Definition _save_store : M unit := vs_save_local.

Definition create_backup : M string :=
  σ ← get_state;
  if negb (path_exists index_file (fs σ))
  then mret "No vector store to backup"
  else
    let timestamp := clock σ in
    let backup_path := path_join backup_dir ("backup_" +:+ timestamp) in
    os_call (makedirs backup_path);;
    os_copy2 index_file backup_path;;
    os_copy2 store_file backup_path;;
    mret ("Backup created at " +:+ backup_path).

Definition restore_backup (backup_timestamp : string) : M string :=
  let backup_path := path_join backup_dir ("backup_" +:+ backup_timestamp) in
  σ ← get_state;
  if negb (path_exists backup_path (fs σ))
  then mret ("Backup " +:+ backup_timestamp +:+ " not found")
  else
    os_copy2 (path_join backup_path "faiss_index") index_file;;
    os_copy2 (path_join backup_path "store.pkl") store_file;;
    st ← _load_or_create_store;
    set_vector_store st;;
    mret ("Restored from backup " +:+ backup_timestamp).

(** [raise Exception(f"<prefix>{str(e)}")] as the handler of a [try]. *)
Definition wrap {A} (prefix : string) (e : exn) : M A :=
  raise (PyExc "Exception" (prefix +:+ exn_msg e)).

Definition add_documents (docs : list Document) : M unit :=
  try_except
    (chunks ← lift (DocumentProcessor.chunk_documents sha256_hexdigest
                      doc_processor docs);
     let texts := page_content <$> chunks in
     let metadatas := metadata <$> chunks in
     create_backup;;
     if bool_decide (texts = []) then mret tt
     else
       vs_add_texts texts metadatas;;
       vs_save_local;;
       cache_clear)
    (wrap "Error adding documents: ").

Definition similarity_search (query : string) (k : Z)
    (filter : option Metadata) : M (list Document) :=
  try_except
    (σ ← get_state;
     lift (similarity_search_lib F (vector_store σ) query k filter))
    (fun e => print ("Search error: " +:+ exn_msg e);; mret []).

Definition delete_document (document_id : string) : M unit :=
  try_except
    (create_backup;;
     vs_delete document_id;;
     _save_store;;
     cache_clear)
    (wrap "Error deleting document: ").

(** The dict [get_stats] returns: the statistics or [{"error": ...}]. *)
Inductive Stats :=
| StatsOk (total_documents total_vectors vector_dimension : Z)
    (store_size_mb : Q)
| StatsError (error : string).

Definition get_stats : M Stats := fun σ =>
  let total_docs := Z.of_nat (length (index_to_docstore_id F (vector_store σ))) in
  let total_vectors := ntotal F (vector_store σ) in
  let dimension := d F (vector_store σ) in
  match getsize size_of index_file (fs σ) with
  | Ok size =>
      (σ, Ok (StatsOk total_docs total_vectors dimension
                (size # Z.to_pos (1024 * 1024))))
  | Raise e => (σ, Ok (StatsError (exn_msg e)))
  end.

End VectorStore.
End VectorStore.

(** ** Reference collaborators

    Simple executable instances of the interfaces above, used to run the
    methods on concrete inputs. *)

Module Reference.
Import OS VectorStore.

(** What can go wrong inside the collaborators. *)
Record Faults := mkFaults {
  embedding_down : bool;
  disk_full : bool;
}.

Definition no_faults : Faults := mkFaults false false.

(** File contents: raw bytes, or what the library's [save_local] wrote. *)
Inductive Blob :=
| Bytes (data : string)
| IndexBlob (vectors : nat)
| PickleBlob (rows : list (string * Document)).

Definition blob_size (b : Blob) : Z :=
  match b with
  | Bytes data => len data
  | IndexBlob vectors => Z.of_nat vectors * 4096
  | PickleBlob rows => Z.of_nat (length rows) * 512
  end.

(** The in-memory store: its rows and the number of ids handed out so
    far. *)
Record Table := mkTable {
  rows : list (string * Document);
  issued : nat;
}.

(** The id of the [n]-th row ever added. *)
Definition fresh_id (n : nat) : string := "doc-" +:+ pretty n.

Fixpoint fresh_ids (from count : nat) : list string :=
  match count with
  | O => []
  | S count' => fresh_id from :: fresh_ids (S from) count'
  end.

(** [Document]s from texts and metadatas; without metadatas every document
    gets an empty dict. *)
Fixpoint make_documents (texts : list string) (metadatas : list Metadata)
    : list Document :=
  match texts, metadatas with
  | [], _ => []
  | t :: texts', [] => mkDocument t ∅ :: make_documents texts' []
  | t :: texts', m :: metadatas' => mkDocument t m :: make_documents texts' metadatas'
  end.

Definition embedding_error : exn :=
  PyExc "RuntimeError" "embedding model unavailable".

Section ListFaiss.
Variable faults : Faults.

Definition list_add_texts (st : Table) (texts : list string)
    (metadatas : list Metadata) : Table * result (list string) :=
  if embedding_down faults then (st, Raise embedding_error)
  else
    let ids := fresh_ids (issued st) (length texts) in
    (mkTable (rows st ++ zip ids (make_documents texts metadatas))
             (issued st + length texts)%nat,
     Ok ids).

Definition list_from_texts (texts : list string) (metadatas : list Metadata)
    : result Table :=
  match list_add_texts (mkTable [] 0) texts metadatas with
  | (st, Ok _) => Ok st
  | (_, Raise e) => Raise e
  end.

(** Unknown ids are rejected before anything is removed. *)
Definition list_delete (st : Table) (id : string) : Table * result unit :=
  if bool_decide (id ∈ (rows st).*1)
  then (mkTable (List.filter (fun row => negb (String.eqb row.1 id)) (rows st))
                (issued st), Ok tt)
  else (st, Raise (PyExc "ValueError"
          ("Some specified ids do not exist in the current store. Ids not found: "
           +:+ id))).

(** [save_local(folder)] writes [folder/index.faiss] and then
    [folder/index.pkl]. *)
Definition list_save_local (st : Table) (folder : string) (fs : FS Blob)
    : FS Blob * result unit :=
  if disk_full faults
  then (fs, Raise (PyExc "OSError" "No space left on device"))
  else
    (mkFS (<[path_join folder "index.pkl" := PickleBlob (rows st)]>
           (<[path_join folder "index.faiss" := IndexBlob (length (rows st))]>
            (files fs)))
          (dirs fs),
     Ok tt).

Definition list_load_local (folder : string) (fs : FS Blob) : result Table :=
  match files fs !! path_join folder "index.faiss",
        files fs !! path_join folder "index.pkl" with
  | Some (IndexBlob _), Some (PickleBlob saved) =>
      Ok (mkTable saved (length saved))
  | _, _ => Raise (PyExc "RuntimeError" "could not read the saved index")
  end.

(** No ranking: the first [k] rows that carry every pair of the filter. *)
Definition matches (filter : option Metadata) (doc : Document) : bool :=
  match filter with
  | None => true
  | Some wanted => bool_decide (wanted ⊆ metadata doc)
  end.

Definition list_similarity_search (st : Table) (query : string) (k : Z)
    (filter : option Metadata) : result (list Document) :=
  if embedding_down faults then Raise embedding_error
  else Ok (take (Z.to_nat k) (List.filter (matches filter) (rows st).*2)).

Definition ListFaiss : Faiss Blob :=
  {| faiss := Table;
     documents := rows;
     ntotal := fun st => Z.of_nat (length (rows st));
     d := fun _ => 1024;
     from_texts := list_from_texts;
     load_local := list_load_local;
     save_local := list_save_local;
     add_texts := list_add_texts;
     delete := list_delete;
     similarity_search_lib := list_similarity_search |}.

End ListFaiss.

(** A splitter without boundary preference: windows of [size] characters,
    each starting [step] characters after the previous one; an empty text
    has no window. *)
Fixpoint windows (fuel : nat) (size step start : nat) (text : string)
    : list (nat * string) :=
  match fuel with
  | O => []
  | S fuel' =>
      if bool_decide (text = "") then []
      else
        (start, String.substring 0 size text)
        :: (if (String.length text <=? size)%nat then []
            else windows fuel' size step (start + step)
                   (String.substring step (String.length text - step) text))
  end.

Definition window_split (size step : nat) (doc : Document) : list Document :=
  (fun w : nat * string =>
     mkDocument w.2 (<["start_index" := VInt (Z.of_nat w.1)]> (metadata doc)))
  <$> windows (String.length (page_content doc)) size (Nat.max 1 step) 0
        (page_content doc).


(** A stand-in for [sha256]: injective, which is all the metadata needs. *)
Definition digest (content : string) : string := "sha256:" +:+ content.

(** [urlparse(url).netloc] for [scheme://netloc/path] urls. *)
Fixpoint until_delim (s : string) : string :=
  match s with
  | EmptyString => ""
  | String c rest =>
      if Ascii.eqb c ("/" : Ascii.ascii) || Ascii.eqb c ("?" : Ascii.ascii)
         || Ascii.eqb c ("#" : Ascii.ascii)
      then "" else String c (until_delim rest)
  end.

Fixpoint netloc (url : string) : string :=
  match url with
  | String a (String b rest as tail) =>
      if Ascii.eqb a ("/" : Ascii.ascii) && Ascii.eqb b ("/" : Ascii.ascii)
      then until_delim rest else netloc tail
  | _ => ""
  end.

(** ASCII lower-casing. *)
Definition lower_ascii (c : Ascii.ascii) : Ascii.ascii :=
  let n := Ascii.nat_of_ascii c in
  if (65 <=? n)%nat && (n <=? 90)%nat then Ascii.ascii_of_nat (n + 32) else c.

Fixpoint lower (s : string) : string :=
  match s with
  | EmptyString => ""
  | String c rest => String (lower_ascii c) (lower rest)
  end.

End Reference.

(** ** Concrete inputs *)

Module Examples.
Import OS VectorStore Reference.

(** [DocumentProcessor()] over the window splitter. *)
Definition default_splitter : DocumentProcessor.TextSplitter :=
  DocumentProcessor.mkTextSplitter (fun docs =>
    Ok (docs ≫= window_split (Z.to_nat Config.CHUNK_SIZE)
                   (Z.to_nat (Config.CHUNK_SIZE - Config.CHUNK_OVERLAP)))).

Definition default_processor : DocumentProcessor.DocumentProcessor :=
  DocumentProcessor.mkDocumentProcessor default_splitter.


Definition nairobi : Document :=
  mkDocument "Nairobi is the capital of Kenya." {["source" := VStr "facts.txt"]}.

(** Provider hits: two Kenyan sites around a foreign one. *)
Definition hit (t l b : string) : gmap string string :=
  {["title" := t; "link" := l; "body" := b]}.

Definition provider_hits : list (gmap string string) :=
  [hit "KRA" "https://www.KRA.go.ke/services" "Tax services";
   hit "Wikipedia" "https://en.wikipedia.org/wiki/Kenya" "Kenya";
   hit "UoN" "https://uonbi.ac.ke/" "University of Nairobi"].

Definition provider (query : string) (limit : Z) : result (list (gmap string string)) :=
  Ok provider_hits.

(** A text of 2500 characters, as in the chunking scenario of the
    specification. *)
Definition long_document : Document :=
  mkDocument (String.concat "" (replicate 2500 "a")) ∅.

(** [Config.VECTOR_DB_PATH], the default [persist_dir]. *)
Definition persist_dir : string := "data/vector_store".

(** The store [_create_new_store] builds. *)
Definition dummy_document : Document :=
  mkDocument "initialization document" {["source" := VStr "initialization"]}.

Definition dummy_table : Table := mkTable [("doc-0", dummy_document)] 1.

(** A cache holding one answer, set at instant 100. *)
Definition warm_cache : Cache.Cache string :=
  Cache.set Cache.init "q:kenya" "answer" None 100.

Definition directories : gset string :=
  {["data/vector_store"; "data/vector_store/backups"]}.

(** Before [__init__] has built a store, over an empty directory. *)
Definition blank_state (faults : Faults) : State (V := string) (ListFaiss faults) :=
  mkState (ListFaiss faults) (mkTable [] 0) Cache.init (mkFS ∅ ∅)
    "20240101_120000" [].

(** The same, over a directory whose two files cannot be read back. *)
Definition corrupt_state (faults : Faults) : State (V := string) (ListFaiss faults) :=
  mkState (ListFaiss faults) (mkTable [] 0) Cache.init
    (mkFS {["data/vector_store/faiss_index" := Bytes "garbage";
            "data/vector_store/store.pkl" := Bytes "garbage"]} ∅)
    "20240101_120000" [].

(** A store just constructed over an empty directory: nothing persisted. *)
Definition fresh_state (faults : Faults) : State (V := string) (ListFaiss faults) :=
  mkState (ListFaiss faults) dummy_table warm_cache (mkFS ∅ directories)
    "20240101_120000" [].

(** A store whose directory holds an index file and a store file. *)
Definition persisted_state (faults : Faults)
    : State (V := string) (ListFaiss faults) :=
  mkState (ListFaiss faults) dummy_table warm_cache
    (mkFS {["data/vector_store/faiss_index" := Bytes "index-v1";
            "data/vector_store/store.pkl" := Bytes "store-v1"]}
          directories)
    "20240101_120000" [].






Definition delete_unknown :=
  delete_document (ListFaiss no_faults) persist_dir "doc-9"
    (persisted_state no_faults).

End Examples.


(** ** cache.py: the memoization wrapper *)

Module Memoize.
Section Memoize.
(** The arguments of the wrapped function and its values; [None] stands for
    Python's [None], which a function may return and the cache may hold. *)
Context {Args W : Type}.
(** [str(args)] and [str(kwargs)]. *)
Variable str_args : Args -> string.
Variable str_kwargs : Args -> string.

(** A Python function: its [__name__] and what a call returns or raises. *)
Record PyFunc := mkPyFunc {
  func_name : string;
  call : Args -> result (option W);
}.

(** [f"{func.__name__}:{str(args)}:{str(kwargs)}"]. *)
Definition cache_key (func : PyFunc) (args : Args) : string :=
  func_name func +:+ ":" +:+ str_args args +:+ ":" +:+ str_kwargs args.

(** The [wrapper] that [Cache.memoize(func)] returns, called on [args]; the
    cache is read at instant [now] and written at instant [later].
    [self.get] gives [None] both for a key that is not served and for a
    stored [None]. *)
Definition wrapper (self : Cache.Cache (option W)) (func : PyFunc) (args : Args)
    (now later : Z) : Cache.Cache (option W) * result (option W) :=
  let key := cache_key func args in
  match mjoin (Cache.get self key now) with
  | Some result => (self, Ok (Some result))
  | None =>
      match call func args with
      | Ok result => (Cache.set self key result None later, Ok result)
      | Raise e => (self, Raise e)
      end
  end.

End Memoize.
Arguments PyFunc Args W : clear implicits.
End Memoize.

(** ** document_processor.py: loading a file *)

Module FileProcessing.
Section FileProcessing.
(** [PyPDFLoader(file_path).load()] and [TextLoader(file_path).load()]. *)
Variable PyPDFLoader_load : string -> result (list Document).
Variable TextLoader_load : string -> result (list Document).
Variable sha256_hexdigest : string -> string.

(** [DocumentProcessor.process_file(file_path)]. *)
Definition process_file (self : DocumentProcessor.DocumentProcessor)
    (file_path : string) : result (list Document) :=
  reraise "Error processing file: "
    (documents ← (if endswith file_path ".pdf"
                  then PyPDFLoader_load file_path
                  else TextLoader_load file_path);
     DocumentProcessor.chunk_documents sha256_hexdigest self documents).

End FileProcessing.
End FileProcessing.

(** ** vector_store.py: the states a restore passes through *)

Module Restore.
Import OS VectorStore.
Section Restore.
Context {B V : Type} (F : Faiss B).
Variable persist_dir : string.

(** The file system once [os.makedirs(persist_dir, exist_ok=True)] is
    done. *)
Definition with_persist_dir (fs0 : FS B) : FS B :=
  mkFS (files fs0) ({[persist_dir]} ∪ dirs fs0).

(** The state after the two [shutil.copy2] calls of [restore_backup]: the
    backup's files [i] and [s] are the live index and store files. *)
Definition restored_files (timestamp : string) (i s : B) (σ : State (V := V) F)
    : State (V := V) F :=
  mkState F (vector_store F σ) (cache F σ)
    (mkFS (<[store_file persist_dir := s]>
           (<[index_file persist_dir := i]> (files (fs F σ))))
          (dirs (fs F σ)))
    (clock F σ)
    (trace F σ
     ++ [EvCopy (backup_index persist_dir timestamp) (index_file persist_dir) i;
         EvCopy (backup_store persist_dir timestamp) (store_file persist_dir) s]).

End Restore.
End Restore.

(** ** agent.py *)

Module RAGAgent.
Import OS VectorStore.

(** The dict the chain returns: both keys are read with [dict.get]. *)
Record ChainResponse := mkChainResponse {
  answer : option string;
  source_documents : option (list Document);
}.

(** The line feed of the f-strings. *)
Definition newline : string := String (Ascii.ascii_of_nat 10) EmptyString.

(** [str(value)] inside an f-string. *)
Definition py_str (value : PyVal) : string :=
  match value with
  | VStr s => s
  | VInt n => pretty n
  end.

(** ["\n".join([f"{r['title']}: {r['snippet']}" for r in web_results])]. *)
Definition web_context (web_results : list KenyanWebSearch.SearchResult) : string :=
  String.concat newline
    ((fun r => KenyanWebSearch.title r +:+ ": " +:+ KenyanWebSearch.snippet r)
     <$> web_results).

(** [f"Source {i+1}: {doc.metadata.get('source', 'Unknown source')}"]. *)
Definition source_text (i : nat) (doc : Document) : string :=
  "Source " +:+ pretty (S i) +:+ ": "
  +:+ py_str (default (VStr "Unknown source") (metadata doc !! "source")).

(** The answer with its sources, as [get_response] formats it. *)
Definition format_answer (response : ChainResponse) : string :=
  let answer := default "I couldn't find an answer to your question."
                  (answer response) in
  let sources := default [] (source_documents response) in
  if bool_decide (sources = []) then answer
  else answer +:+ newline +:+ newline +:+ "Sources:" +:+ newline
       +:+ String.concat newline (imap source_text sources).

Section RAGAgent.
Context {B V Mem : Type} (F : Faiss B).
(** The collaborators of [self.web_search] and [self.vector_store]. *)
Variable urlparse_netloc : string -> string.
Variable str_lower : string -> string.
Variable ddgs_text : string -> Z -> result (list (gmap string string)).
Variable sha256_hexdigest : string -> string.
Variable doc_processor : DocumentProcessor.DocumentProcessor.
Variable persist_dir : string.
(** [self.chain({"question": question})]: the chain reads the store through
    its retriever, keeps the conversation in its memory [Mem], and returns
    a dict or raises. *)
Variable chain : State (V := V) F -> Mem -> string -> Mem * result ChainResponse.

#[local] Existing Instance M_ret.
#[local] Existing Instance M_bind.

(** The agent: its vector store and the memory of its chain. *)
Record Agent := mkAgent {
  store : State (V := V) F;
  memory : Mem;
}.

(** A method of [self.vector_store], run on the agent. *)
Definition on_store {A} (m : M (V := V) F A) (self : Agent) : Agent * result A :=
  let '(σ, r) := m (store self) in (mkAgent σ (memory self), r).

(** The question [get_response] hands to the chain: the query itself when
    the store has matching documents or the web has nothing to add. *)
Definition question_for (query : string) (docs : list Document)
    : M (V := V) F string :=
  if bool_decide (docs = []) then
    web_results ← lift F (KenyanWebSearch.search urlparse_netloc str_lower
                            ddgs_text query 5);
    if bool_decide (web_results = []) then mret query
    else
      let context := web_context web_results in
      mret ("Context from web search: " +:+ context +:+ newline
            +:+ "Question: " +:+ query)
  else mret query.

(** [except Exception as e: return f"An error occurred: {str(e)}"]. *)
Definition error_answer (e : exn) : string := "An error occurred: " +:+ exn_msg e.

(** The chain call of [get_response] and what is made of its outcome: the
    formatted answer, or the error text when the chain raises. *)
Definition ask_chain (question : string) (self : Agent) : Agent * result string :=
  match chain (store self) (memory self) question with
  | (memory', Ok response) =>
      (mkAgent (store self) memory', Ok (format_answer response))
  | (memory', Raise e) => (mkAgent (store self) memory', Ok (error_answer e))
  end.

(** [RAGAgent.get_response(query)]. *)
Definition get_response (query : string) (self : Agent) : Agent * result string :=
  match on_store (docs ← similarity_search F query 4 None;
                  question_for query docs) self with
  | (self, Ok question) => ask_chain question self
  | (self, Raise e) => (self, Ok (error_answer e))
  end.

(** [RAGAgent.add_documents(documents)]. *)
Definition add_documents (documents : list Document) (self : Agent)
    : Agent * result bool :=
  on_store
    (try_except F
       (VectorStore.add_documents F sha256_hexdigest doc_processor persist_dir
          documents;;
        mret true)
       (fun e =>
          print F ("Error adding documents: " +:+ exn_msg e);;
          mret false))
    self.

End RAGAgent.
Arguments Agent {B} V Mem F.
End RAGAgent.

(** ** Further concrete inputs *)

Module Scenarios.
Import OS VectorStore Reference Examples.

(** Functions of one integer behind [Cache.memoize]: [str(args)] of a
    one-element tuple and [str(kwargs)] of no keyword argument. *)
Definition str_args (n : Z) : string := "(" +:+ pretty n +:+ ",)".
Definition str_kwargs (n : Z) : string := "{}".

Definition square : Memoize.PyFunc Z Z :=
  Memoize.mkPyFunc "square" (fun n => Ok (Some (n * n))).

(** Two functions called [lookup]: one finds nothing, the other one does. *)
Definition lookup_nothing : Memoize.PyFunc Z Z :=
  Memoize.mkPyFunc "lookup" (fun n => Ok None).
Definition lookup_found : Memoize.PyFunc Z Z :=
  Memoize.mkPyFunc "lookup" (fun n => Ok (Some n)).

(** A provider whose hits carry the address under [href]. *)
Definition href_provider (query : string) (limit : Z)
    : result (list (gmap string string)) :=
  Ok [{["title" := "KRA"; "href" := "https://www.kra.go.ke/"; "body" := "Tax"]}].

(** A splitter that rejects its configuration. *)
Definition failing_processor : DocumentProcessor.DocumentProcessor :=
  DocumentProcessor.mkDocumentProcessor
    (DocumentProcessor.mkTextSplitter (fun docs =>
       Raise (PyExc "ValueError" "chunk overlap too large"))).

(** The persisted store after [create_backup]. *)
Definition backed_up : State (V := string) (ListFaiss no_faults) :=
  (create_backup (ListFaiss no_faults) persist_dir (persisted_state no_faults)).1.

(** The same store once its two files were written anew. *)
Definition rewritten (σ : State (V := string) (ListFaiss no_faults))
    : State (V := string) (ListFaiss no_faults) :=
  mkState (ListFaiss no_faults) (vector_store _ σ) (cache _ σ)
    (mkFS (<["data/vector_store/store.pkl" := Bytes "store-v2"]>
           (<["data/vector_store/faiss_index" := Bytes "index-v2"]>
            (files (fs _ σ))))
          (dirs (fs _ σ)))
    (clock _ σ) (trace _ σ).

(** A backup directory that holds an index file and no store file. *)
Definition half_backup : State (V := string) (ListFaiss no_faults) :=
  mkState (ListFaiss no_faults) dummy_table warm_cache
    (mkFS {["data/vector_store/faiss_index" := Bytes "index-v2";
            "data/vector_store/store.pkl" := Bytes "store-v2";
            "data/vector_store/backups/backup_20240101_120000/faiss_index"
              := Bytes "index-v1"]}
          ({["data/vector_store/backups/backup_20240101_120000"]} ∪ directories))
    "20240101_120000" [].

(** A chain that remembers the questions it was asked and answers each from
    one source. *)
Definition echo_chain (σ : State (V := string) (ListFaiss no_faults))
    (asked : list string) (question : string)
    : list string * result RAGAgent.ChainResponse :=
  (asked ++ [question],
   Ok (RAGAgent.mkChainResponse (Some ("Answer to: " +:+ question))
         (Some [nairobi]))).

(** An agent over a store that holds the initialization document, and one
    over a store without rows. *)
Definition agent : RAGAgent.Agent string (list string) (ListFaiss no_faults) :=
  RAGAgent.mkAgent _ (fresh_state no_faults) [].

Definition empty_agent : RAGAgent.Agent string (list string) (ListFaiss no_faults) :=
  RAGAgent.mkAgent _ (blank_state no_faults) [].

End Scenarios.

(** ** pathlib, as [storage_manager.py] uses it (POSIX paths) *)

Module Pathlib.
Import OS.

(** [s.split(sep)] for a separator of one character: the pieces between
    the separators, at least one. *)
Fixpoint split_on (sep : Ascii.ascii) (s : string) : list string :=
  match s with
  | EmptyString => [""]
  | String c rest =>
      if Ascii.eqb c sep then "" :: split_on sep rest
      else match split_on sep rest with
           | piece :: pieces => String c piece :: pieces
           | [] => [String c ""]
           end
  end.

(** [posixpath.splitroot(p)] without the drive, which is always empty: one
    leading slash or three and more make the root ["/"], exactly two make
    it ["//"]. *)
Definition splitroot (p : string) : string * string :=
  match p with
  | String c1 rest1 =>
      if Ascii.eqb c1 ("/" : Ascii.ascii) then
        match rest1 with
        | String c2 rest2 =>
            if Ascii.eqb c2 ("/" : Ascii.ascii) then
              match rest2 with
              | String c3 _ =>
                  if Ascii.eqb c3 ("/" : Ascii.ascii) then ("/", rest1)
                  else ("//", rest2)
              | EmptyString => ("//", rest2)
              end
            else ("/", rest1)
        | EmptyString => ("/", rest1)
        end
      else ("", p)
  | EmptyString => ("", p)
  end.

(** A path as pathlib parses it: the root and the segments after it. *)
Record Path := mkPath {
  root : string;
  tail : list string;
}.

#[global] Instance Path_eq_dec : EqDecision Path.
Proof. solve_decision. Defined.

(** The segments of the part after the root: empty pieces and ["."] are
    dropped, [".."] is kept. *)
Definition segments (rel : string) : list string :=
  List.filter (fun x => negb (String.eqb x "") && negb (String.eqb x "."))
    (split_on "/" rel).

(** [Path(s)]. *)
Definition Path_of (s : string) : Path :=
  let '(root, rel) := splitroot s in mkPath root (segments rel).

(** [p / key] for a string [key]: a [key] with a root replaces [p]. *)
Definition truediv (p : Path) (key : string) : Path :=
  let q := Path_of key in
  if bool_decide (root q = "") then mkPath (root p) (tail p ++ tail q) else q.

(** [str(p)], which is also [os.fspath(p)]. *)
Definition str (p : Path) : string :=
  let s := root p +:+ String.concat "/" (tail p) in
  if bool_decide (s = "") then "." else s.

(** What pathlib keeps as a segment: a non-empty piece without a slash. *)
Definition is_segment (x : string) : Prop := x <> "" /\ has_slash x = false.

(** [p.parent]. *)
Definition parent (p : Path) : Path := mkPath (root p) (removelast (tail p)).

End Pathlib.

(** ** Files as [open], [Path.exists] and [Path.unlink] show them

    As in [OS] above, names are looked up as they are written: the model
    has no symbolic links and does not resolve [".."] steps. *)

Module Files.
Import OS Pathlib.
Section Files.
Context {B : Type}.

(** [with open(p, "wb") as f: f.write(content)]: the target must not be a
    directory and its parent must be one. *)
Definition write_bytes (p : Path) (content : B) (fs : FS B) : result (FS B) :=
  if bool_decide (tail p = []) || bool_decide (str p ∈ dirs fs)
  then Raise (PyExc "IsADirectoryError" (str p))
  else if bool_decide (tail (parent p) = []) || bool_decide (str (parent p) ∈ dirs fs)
  then Ok (mkFS (<[str p := content]> (files fs)) (dirs fs))
  else if bool_decide (is_Some (files fs !! str (parent p)))
  then Raise (PyExc "NotADirectoryError" (str p))
  else Raise (PyExc "FileNotFoundError" (str p)).

(** [p.exists()]. *)
Definition exists_ (p : Path) (fs : FS B) : bool := path_exists (str p) fs.

(** [p.unlink()]. *)
Definition unlink (p : Path) (fs : FS B) : result (FS B) :=
  match files fs !! str p with
  | Some _ => Ok (mkFS (base.delete (str p) (files fs)) (dirs fs))
  | None =>
      if bool_decide (str p ∈ dirs fs)
      then Raise (PyExc "IsADirectoryError" (str p))
      else Raise (PyExc "FileNotFoundError" (str p))
  end.

End Files.
End Files.

(** ** storage_manager.py *)

Module StorageManager.
Import OS Pathlib Files.

Record StorageManager := mkStorageManager {
  base_dir : Path;
  vector_store_dir : Path;
  documents_dir : Path;
  cache_dir : Path;
  backup_dir : Path;
}.

(** The attributes [__init__] computes from [base_dir]. *)
Definition attributes (base : string) : StorageManager :=
  let base_dir := Path_of base in
  let vector_store_dir := truediv base_dir "vector_store" in
  mkStorageManager base_dir vector_store_dir (truediv base_dir "documents")
    (truediv base_dir "cache") (truediv vector_store_dir "backups").

(** A name of one segment that names neither the directory itself nor its
    parent. *)
Definition plain_name (name : string) : bool :=
  negb (has_slash name) && negb (String.eqb name "")
  && negb (String.eqb name ".") && negb (String.eqb name "..").

Section StorageManager.
Context {B : Type}.
(** [str.lower]. *)
Variable str_lower : string -> string.

(** Methods read and write the file system and may raise; what was written
    before a raise stays written. *)
Definition IO (A : Type) : Type := FS B -> FS B * result A.

#[local] Instance IO_ret : MRet IO := fun A a fs => (fs, Ok a).
#[local] Instance IO_bind : MBind IO := fun A A' f m fs =>
  match m fs with
  | (fs', Ok a) => f a fs'
  | (fs', Raise e) => (fs', Raise e)
  end.

(** Reading the file system. *)
Definition get_fs : IO (FS B) := fun fs => (fs, Ok fs).

(** A file-system call that changes nothing when it raises. *)
Definition os_call (f : FS B -> result (FS B)) : IO unit := fun fs =>
  match f fs with
  | Ok fs' => (fs', Ok tt)
  | Raise e => (fs, Raise e)
  end.

(** [StorageManager._create_directories()]. *)
Definition _create_directories (self : StorageManager) : IO unit :=
  os_call (makedirs (str (vector_store_dir self)));;
  os_call (makedirs (str (truediv (documents_dir self) "pdf")));;
  os_call (makedirs (str (truediv (documents_dir self) "txt")));;
  os_call (makedirs (str (cache_dir self)));;
  os_call (makedirs (str (backup_dir self))).

(** [StorageManager(base_dir)]. *)
Definition init (base : string) : IO StorageManager :=
  let self := attributes base in
  _create_directories self;;
  mret self.

(** [filename.lower().split('.')[-1]]. *)
Definition file_extension (filename : string) : string :=
  List.last (split_on "." (str_lower filename)) "".

(** [StorageManager.save_document(file_content, filename)]. *)
Definition save_document (self : StorageManager) (file_content : B)
    (filename : string) : IO Path :=
  let file_extension := file_extension filename in
  let target_dir :=
    truediv (documents_dir self)
      (if String.eqb file_extension "pdf" then "pdf" else "txt") in
  let file_path := truediv target_dir filename in
  os_call (write_bytes file_path file_content);;
  mret file_path.

(** [StorageManager.delete_document(filename)]. *)
Definition delete_document (self : StorageManager) (filename : string) : IO bool :=
  let file_extension := file_extension filename in
  let file_path := truediv (truediv (documents_dir self) file_extension) filename in
  fs ← get_fs;
  if exists_ file_path fs
  then os_call (unlink file_path);; mret true
  else mret false.

(** [StorageManager.get_document_path(filename)]. *)
Definition get_document_path (self : StorageManager) (filename : string)
    (fs : FS B) : option Path :=
  let file_extension := file_extension filename in
  let file_path := truediv (truediv (documents_dir self) file_extension) filename in
  if exists_ file_path fs then Some file_path else None.

End StorageManager.
End StorageManager.

(** ** Uploads to run the storage manager on *)

Module Uploads.
Import OS Pathlib Reference.

(** [StorageManager()] over an empty file system. *)
Definition manager : StorageManager.StorageManager := StorageManager.attributes "data".

Definition ready : FS Blob := (StorageManager.init "data" (mkFS ∅ ∅)).1.

(** A Markdown file and a PDF whose extension is in capitals. *)
Definition saved_notes :=
  StorageManager.save_document lower manager (Bytes "# notes") "notes.md" ready.

Definition saved_report :=
  StorageManager.save_document lower manager (Bytes "%PDF-1.7") "Report.PDF" ready.

End Uploads.

(** ** Proof automation *)

(** Unfold the plumbing of method bodies. *)
Ltac binds :=
  unfold VectorStore.try_except, VectorStore.wrap, VectorStore.raise,
    VectorStore.lift, VectorStore.get_state, mbind, VectorStore.M_bind, mret,
    VectorStore.M_ret;
  cbn.

Ltac binds_in H :=
  unfold VectorStore.try_except, VectorStore.wrap, VectorStore.raise,
    VectorStore.lift, VectorStore.get_state, mbind, VectorStore.M_bind, mret,
    VectorStore.M_ret in H;
  cbn in H.

(** Split a run of [add_documents] into the outcomes of its steps. *)
Ltac add_cases Hrun :=
  unfold VectorStore.add_documents in Hrun; binds_in Hrun;
  destruct (DocumentProcessor.chunk_documents _ _ _) as [chunks | e0] eqn:Hchunk;
    cbn in Hrun;
  [ destruct (VectorStore.create_backup _ _ _) as [σ1 [msg | e1]] eqn:Hbackup;
      cbn in Hrun;
    [ case_bool_decide as Htexts;
      [ | unfold VectorStore.vs_add_texts, VectorStore.vs_save_local,
            VectorStore.cache_clear, VectorStore.log,
            VectorStore.set_vector_store, VectorStore.set_fs,
            VectorStore.set_cache in Hrun;
          binds_in Hrun;
          destruct (VectorStore.add_texts _ _ _ _) as [st' [ids | e2]] eqn:Hadd;
            cbn in Hrun;
          [ destruct (VectorStore.save_local _ _ _ _) as [fs' [[] | e3]] eqn:Hsave;
              cbn in Hrun
          | ] ]
    | ]
  | ];
  first [discriminate Hrun | injection Hrun as <- <- | injection Hrun as <-].

(** The same for [delete_document]. *)
Ltac delete_cases Hrun :=
  unfold VectorStore.delete_document in Hrun; binds_in Hrun;
  destruct (VectorStore.create_backup _ _ _) as [σ1 [msg | e1]] eqn:Hbackup;
    cbn in Hrun;
  [ unfold VectorStore.vs_delete, VectorStore._save_store,
      VectorStore.vs_save_local, VectorStore.cache_clear, VectorStore.log,
      VectorStore.set_vector_store, VectorStore.set_fs, VectorStore.set_cache
      in Hrun;
    binds_in Hrun;
    destruct (VectorStore.delete _ _ _) as [st' [[] | e2]] eqn:Hdel; cbn in Hrun;
    [ destruct (VectorStore.save_local _ _ _ _) as [fs' [[] | e3]] eqn:Hsave;
        cbn in Hrun
    | ]
  | ];
  first [discriminate Hrun | injection Hrun as <- <- | injection Hrun as <-].

(** * Properties *)

(** ** Sanity checks of the string and path functions *)

Example endswith_suffix : endswith "www.kra.go.ke" "go.ke" = true.
Proof. reflexivity. Qed.

Example endswith_other : endswith "www.kenya.com" ".ke" = false.
Proof. reflexivity. Qed.

Example endswith_longer : endswith "ke" ".ke" = false.
Proof. reflexivity. Qed.

Example path_join_plain :
  OS.path_join "data/vector_store" "faiss_index" = "data/vector_store/faiss_index".
Proof. reflexivity. Qed.

Example path_join_trailing_slash :
  OS.path_join "data/" "backups" = "data/backups".
Proof. reflexivity. Qed.

Example basename_of_index :
  OS.basename "data/vector_store/faiss_index" = "faiss_index".
Proof. reflexivity. Qed.

Example netloc_of_url :
  Reference.lower (Reference.netloc "https://www.KRA.go.ke/services?x=1")
  = "www.kra.go.ke".
Proof. reflexivity. Qed.

(** The reference splitter on 2500 characters with the default parameters:
    three chunks, starting at 0, 800 and 1600, each recording three chunks
    in total. *)
Example long_document_chunks :
  match DocumentProcessor.chunk_documents Reference.digest
          Examples.default_processor [Examples.long_document] with
  | Ok chunks =>
      List.map (fun c => (metadata c !! "start_index",
                          metadata c !! "total_chunks",
                          metadata c !! "chunk_size")) chunks
  | Raise _ => []
  end
  = [(Some (VInt 0), Some (VInt 3), Some (VInt 1000));
     (Some (VInt 800), Some (VInt 3), Some (VInt 1000));
     (Some (VInt 1600), Some (VInt 3), Some (VInt 900))].
Proof. vm_compute. reflexivity. Qed.

(** ** Cache *)

Section CacheProperties.
Context {V : Type}.

Lemma ttl_or_falsy (default : Z) :
  Cache.ttl_or (Some 0) default = Cache.ttl_or None default.
Proof. reflexivity. Qed.

(** C9: [Cache.set] with [ttl=0] stores the entry exactly as with
    [ttl=None]: its expiry is one default TTL (3600 seconds) after the
    call, so the entry is still served at any instant before that; the
    default is chosen by the truthiness of the supplied ttl, and a ttl that
    is not zero is used as given. *)
Theorem set_falsy_ttl_uses_default (self : Cache.Cache V) (key : string)
    (value : V) (now : Z) :
  Cache.ttl self = 3600 ->
  Cache.set self key value (Some 0) now = Cache.set self key value None now
  /\ Cache.cache (Cache.set self key value (Some 0) now) !! key
     = Some (value, now + 3600)
  /\ (forall t, t < now + 3600 ->
        Cache.get (Cache.set self key value (Some 0) now) key t = Some value)
  /\ (forall n, n <> 0 ->
        Cache.cache (Cache.set self key value (Some n) now) !! key
        = Some (value, now + n)).
Proof.
  intros Httl. repeat split.
  - unfold Cache.set; cbn. rewrite Httl. apply lookup_insert_eq.
  - intros t Ht. unfold Cache.get, Cache.set; cbn.
    rewrite lookup_insert_eq, Httl.
    destruct (Z.ltb_spec t (now + 3600)); [reflexivity | lia].
  - intros n Hn. unfold Cache.set, Cache.ttl_or; cbn.
    destruct (Z.eqb_spec n 0); [contradiction |]. apply lookup_insert_eq.
Qed.

End CacheProperties.

(** An answer cached with [ttl=0] at instant 100 is still served at 3699. *)
Lemma set_falsy_ttl_uses_default_witness :
  Cache.ttl (@Cache.init string) = 3600
  /\ Cache.get (Cache.set Cache.init "q:kenya" "answer" (Some 0) 100) "q:kenya" 3699
     = Some "answer".
Proof.
  split; [reflexivity |].
  apply (set_falsy_ttl_uses_default Cache.init "q:kenya" "answer" 100);
    [reflexivity | lia].
Defined.

(** ** Document processor *)

Section DocumentProcessorProperties.
Import DocumentProcessor.
Variable sha256_hexdigest : string -> string.



Lemma chunk_documents_raise (self : DocumentProcessor) (docs : list Document) (e : exn) :
  split_documents (text_splitter self) docs = Raise e ->
  chunk_documents sha256_hexdigest self docs
  = Raise (PyExc "Exception" ("Error chunking documents: " +:+ exn_msg e)).
Proof. intros H. unfold chunk_documents. rewrite H. reflexivity. Qed.


(** C10: for the empty chunk list [get_chunk_stats] raises (the average
    divides by zero, and max and min of no sizes would raise as well); it
    returns no statistics. *)
Theorem get_chunk_stats_empty_raises :
  get_chunk_stats []
  = Raise (PyExc "Exception" "Error calculating chunk statistics: division by zero")
  /\ (forall stats, get_chunk_stats [] <> Ok stats)
  /\ raises (truediv (py_sum []) (Z.of_nat (length (@nil Document))))
  /\ raises (py_max []) /\ raises (py_min []).
Proof.
  split; [reflexivity |]. split; [intros stats H; discriminate H |].
  repeat split.
Qed.

End DocumentProcessorProperties.


(** ** Web search *)

Section KenyanWebSearchProperties.
Import KenyanWebSearch.
Variable urlparse_netloc : string -> string.
Variable str_lower : string -> string.
Variable ddgs_text : string -> Z -> result (list (gmap string string)).

Local Abbreviation keep := (kept urlparse_netloc str_lower).

Lemma getitem_some (r : gmap string string) (key : string) :
  is_Some (r !! key) -> getitem r key = Ok (default "" (r !! key)).
Proof. intros [v Hv]. unfold getitem. rewrite Hv. reflexivity. Qed.

Lemma visit_well_formed (max_results : Z) (acc : list SearchResult)
    (r : gmap string string) :
  well_formed r ->
  visit urlparse_netloc str_lower max_results acc r
  = Ok (if keep r && (Z.of_nat (length acc) <? max_results)
        then acc ++ [to_result r] else acc).
Proof.
  intros (Hl & Ht & Hb). unfold visit, kept, to_result.
  rewrite (getitem_some r "link" Hl), (getitem_some r "title" Ht),
    (getitem_some r "body" Hb). cbn.
  destruct (_ && _); reflexivity.
Qed.

Lemma visit_all_filter (max_results : Z) (hits : list (gmap string string)) :
  Forall well_formed hits ->
  forall acc,
    visit_all urlparse_netloc str_lower max_results acc hits
    = Ok (acc ++ (to_result <$>
            take (Z.to_nat (max_results - Z.of_nat (length acc)))
                 (List.filter keep hits))).
Proof.
  induction 1 as [| r rest Hr _ IH]; intros acc.
  - cbn. rewrite take_nil. cbn. rewrite app_nil_r. reflexivity.
  - cbn [visit_all]. rewrite (visit_well_formed _ _ _ Hr). cbn [mbind result_bind].
    cbn [List.filter]. destruct (keep r) eqn:Hk; cbn [andb].
    + destruct (Z.ltb_spec (Z.of_nat (length acc)) max_results) as [Hlt | Hge].
      * rewrite IH, length_app. cbn [length].
        replace (Z.to_nat (max_results - Z.of_nat (length acc)))
          with (S (Z.to_nat (max_results - Z.of_nat (length acc + 1)))) by lia.
        cbn. rewrite <- app_assoc. reflexivity.
      * rewrite IH.
        replace (Z.to_nat (max_results - Z.of_nat (length acc))) with O by lia.
        reflexivity.
    + apply IH.
Qed.



End KenyanWebSearchProperties.


(** ** Paths *)

Section PathProperties.
Import OS.

Lemma append_cons (c : ascii) (a b : string) :
  String c a +:+ b = String c (a +:+ b).
Proof. reflexivity. Qed.

Lemma append_assoc (a b c : string) : (a +:+ b) +:+ c = a +:+ (b +:+ c).
Proof.
  induction a as [| x a IH]; [reflexivity |].
  rewrite !append_cons, IH. reflexivity.
Qed.

Lemma append_cancel (a x y : string) : a +:+ x = a +:+ y -> x = y.
Proof. apply (inj (String.append a)). Qed.

Lemma path_join_relative (a b : string) :
  starts_with_slash b = false -> path_join a b = a +:+ separator a +:+ b.
Proof.
  intros Hb. unfold path_join, separator. rewrite Hb.
  destruct (bool_decide (a = "") || ends_with_slash a); reflexivity.
Qed.

Lemma has_slash_app (a b : string) :
  has_slash (a +:+ b) = has_slash a || has_slash b.
Proof.
  induction a as [| c a IH]; [reflexivity |].
  rewrite append_cons. cbn [has_slash]. rewrite IH, orb_assoc. reflexivity.
Qed.

Lemma basename_no_slash (n : string) : has_slash n = false -> basename n = n.
Proof.
  destruct n as [| c n]; [reflexivity |]. cbn [has_slash basename].
  intros [Hc Hn]%orb_false_iff. rewrite Hn, Hc. reflexivity.
Qed.

Lemma basename_after_slash (a n : string) :
  has_slash n = false -> basename (a +:+ "/" +:+ n) = n.
Proof.
  intros Hn. induction a as [| c a IH].
  - change ("" +:+ "/" +:+ n) with (String "/" n). cbn [basename].
    rewrite Hn. reflexivity.
  - rewrite append_cons. cbn [basename].
    rewrite has_slash_app. change ("/" +:+ n) with (String "/" n).
    cbn [has_slash]. rewrite orb_true_r. exact IH.
Qed.

Lemma ends_with_slash_split (a : string) :
  ends_with_slash a = true -> exists a', a = a' +:+ "/".
Proof.
  induction a as [| c a IH]; [discriminate |].
  destruct a as [| c' a].
  - cbn. intros ->%Ascii.eqb_eq. exists "". reflexivity.
  - intros H. destruct (IH H) as [a' Ha']. exists (String c a').
    rewrite append_cons, <- Ha'. reflexivity.
Qed.

Lemma basename_path_join (a n : string) :
  has_slash n = false -> basename (path_join a n) = n.
Proof.
  intros Hn.
  assert (Hs : starts_with_slash n = false).
  { destruct n as [| c n]; [reflexivity |]. cbn in *.
    apply orb_false_iff in Hn. apply Hn. }
  rewrite (path_join_relative _ _ Hs). unfold separator.
  destruct (bool_decide (a = "")) eqn:Ha; cbn [orb].
  - apply bool_decide_eq_true in Ha as ->. apply basename_no_slash, Hn.
  - destruct (ends_with_slash a) eqn:He.
    + apply ends_with_slash_split in He as [a' ->].
      change ("" +:+ n) with n. rewrite append_assoc.
      apply basename_after_slash, Hn.
    + apply basename_after_slash, Hn.
Qed.

Lemma made_dir_exists {B : Type} (p : string) (fs0 : FS B) :
  p ∈ dirs (mkFS (files fs0) ({[p]} ∪ dirs fs0)).
Proof. cbn. apply elem_of_union. left. apply elem_of_singleton. reflexivity. Qed.

End PathProperties.

(** ** Vector store *)

Section VectorStoreProperties.
Import OS VectorStore.
Local Set Default Proof Using "Type".
Context {B V : Type} (F : Faiss B).
Variable size_of : B -> Z.
Variable sha256_hexdigest : string -> string.
Variable doc_processor : DocumentProcessor.DocumentProcessor.
Variable persist_dir : string.

Local Abbreviation St := (@State B V F).
Local Abbreviation idx := (index_file persist_dir).
Local Abbreviation pkl := (store_file persist_dir).
Local Abbreviation bp := (backup_path persist_dir).

#[local] Arguments path_join : simpl never.
#[local] Arguments index_file : simpl never.
#[local] Arguments store_file : simpl never.
#[local] Arguments backup_dir : simpl never.
#[local] Arguments backup_path : simpl never.
#[local] Arguments makedirs : simpl never.
#[local] Arguments copy2 : simpl never.
#[local] Arguments copy_target : simpl never.
#[local] Arguments path_exists : simpl never.

Lemma makedirs_ok (p : string) (fs0 fs1 : FS B) :
  makedirs p fs0 = Ok fs1 ->
  files fs0 !! p = None /\ fs1 = mkFS (files fs0) ({[p]} ∪ dirs fs0).
Proof.
  unfold makedirs. case_bool_decide as Hp; [discriminate |].
  intros [= <-]. split; [| reflexivity].
  destruct (files fs0 !! p) eqn:E; [| reflexivity]. destruct Hp. eauto.
Qed.

Lemma copy2_ok (src dst : string) (fs0 fs1 : FS B) :
  copy2 src dst fs0 = Ok fs1 ->
  exists data,
    files fs0 !! src = Some data
    /\ copy_target src dst fs0 <> src
    /\ fs1 = mkFS (<[copy_target src dst fs0 := data]> (files fs0)) (dirs fs0).
Proof.
  unfold copy2. destruct (files fs0 !! src) as [data |]; [| discriminate].
  case_bool_decide as Ht; [discriminate |]. intros [= <-]. eauto.
Qed.

(** The four paths involved in a backup. *)
Lemma backup_path_relative (timestamp : string) :
  bp timestamp
  = persist_dir +:+ separator persist_dir +:+ "backups"
      +:+ separator (backup_dir persist_dir) +:+ "backup_" +:+ timestamp.
Proof.
  unfold backup_path, backup_dir.
  rewrite !path_join_relative by reflexivity. rewrite !append_assoc. reflexivity.
Qed.

Lemma backup_targets_apart (timestamp : string) :
  backup_index persist_dir timestamp <> idx
  /\ backup_index persist_dir timestamp <> pkl
  /\ backup_store persist_dir timestamp <> idx
  /\ backup_store persist_dir timestamp <> pkl
  /\ backup_index persist_dir timestamp <> backup_store persist_dir timestamp.
Proof.
  unfold backup_index, backup_store, index_file, store_file.
  rewrite !path_join_relative by reflexivity.
  repeat split; intros H.
  5: { do 2 apply append_cancel in H. discriminate H. }
  all: rewrite backup_path_relative, !append_assoc in H;
    do 2 apply append_cancel in H; rewrite !append_cons in H; discriminate H.
Qed.

Lemma backup_target_index (timestamp : string) (fs0 : FS B) :
  bp timestamp ∈ dirs fs0 ->
  copy_target idx (bp timestamp) fs0 = backup_index persist_dir timestamp.
Proof.
  intros Hd. unfold copy_target. rewrite bool_decide_eq_true_2 by exact Hd.
  unfold index_file. rewrite basename_path_join; reflexivity.
Qed.

Lemma backup_target_store (timestamp : string) (fs0 : FS B) :
  bp timestamp ∈ dirs fs0 ->
  copy_target pkl (bp timestamp) fs0 = backup_store persist_dir timestamp.
Proof.
  intros Hd. unfold copy_target. rewrite bool_decide_eq_true_2 by exact Hd.
  unfold store_file. rewrite basename_path_join; reflexivity.
Qed.

Lemma os_call_inv (f : FS B -> result (FS B)) (σ σ' : St) (r : result unit) :
  os_call F f σ = (σ', r) ->
  match r with
  | Ok _ => exists fs', f (fs F σ) = Ok fs'
      /\ σ' = mkState F (vector_store F σ) (cache F σ) fs' (clock F σ) (trace F σ)
  | Raise e => f (fs F σ) = Raise e /\ σ' = σ
  end.
Proof.
  unfold os_call, set_fs. binds. destruct (f (fs F σ)) as [fs' | e];
    intros [= <- <-]; eauto.
Qed.

Lemma os_copy2_inv (src dst : string) (σ σ' : St) (r : result unit) :
  os_copy2 F src dst σ = (σ', r) ->
  match r with
  | Ok _ => exists data,
      files (fs F σ) !! src = Some data
      /\ copy_target src dst (fs F σ) <> src
      /\ σ' = mkState F (vector_store F σ) (cache F σ)
               (mkFS (<[copy_target src dst (fs F σ) := data]> (files (fs F σ)))
                     (dirs (fs F σ)))
               (clock F σ)
               (trace F σ ++ [EvCopy src (copy_target src dst (fs F σ)) data])
  | Raise e => σ' = σ
  end.
Proof.
  unfold os_copy2, os_call, set_fs, log. binds.
  destruct (copy2 src dst (fs F σ)) as [fs' | e] eqn:Hc.
  - apply copy2_ok in Hc as (data & Hsrc & Hne & ->). rewrite Hsrc.
    intros [= <- <-]. eauto.
  - intros [= <- <-]. reflexivity.
Qed.

Lemma create_backup_skip (σ : St) :
  path_exists idx (fs F σ) = false ->
  create_backup F persist_dir σ = (σ, Ok "No vector store to backup").
Proof. intros H. unfold create_backup. binds. rewrite H. reflexivity. Qed.

(** What a backup attempt can do: every outcome other than the full
    snapshot leaves an error. *)
Lemma create_backup_inv (σ σ' : St) (r : result string) :
  create_backup F persist_dir σ = (σ', r) ->
  path_exists idx (fs F σ) = true ->
  let ts := clock F σ in
  let fs1 := mkFS (files (fs F σ)) ({[bp ts]} ∪ dirs (fs F σ)) in
  (exists e, r = Raise e /\ σ' = σ)
  \/ (exists e, r = Raise e
       /\ σ' = mkState F (vector_store F σ) (cache F σ) fs1 (clock F σ) (trace F σ))
  \/ (exists e i, r = Raise e
       /\ files (fs F σ) !! idx = Some i
       /\ σ' = mkState F (vector_store F σ) (cache F σ)
                (mkFS (<[backup_index persist_dir ts := i]> (files (fs F σ)))
                      (dirs fs1))
                (clock F σ)
                (trace F σ ++ [EvCopy idx (backup_index persist_dir ts) i]))
  \/ (exists i s, r = Ok ("Backup created at " +:+ bp ts)
       /\ files (fs F σ) !! idx = Some i
       /\ files (fs F σ) !! pkl = Some s
       /\ σ' = mkState F (vector_store F σ) (cache F σ)
                (mkFS (<[backup_store persist_dir ts := s]>
                       (<[backup_index persist_dir ts := i]> (files (fs F σ))))
                      (dirs fs1))
                (clock F σ)
                (trace F σ ++ [EvCopy idx (backup_index persist_dir ts) i;
                               EvCopy pkl (backup_store persist_dir ts) s])).
Proof.
  intros Hrun Hex. cbn zeta. unfold create_backup in Hrun. binds_in Hrun.
  rewrite Hex in Hrun. cbn in Hrun. fold (bp (clock F σ)) in Hrun.
  destruct (os_call F (makedirs (bp (clock F σ))) σ) as [σ1 [[] | e1]] eqn:H1;
    apply os_call_inv in H1.
  2: { destruct H1 as [_ ->]. injection Hrun as <- <-. eauto. }
  destruct H1 as (fs1 & [_ ->]%makedirs_ok & ->).
  destruct (os_copy2 F idx _ _) as [σ2 [[] | e2]] eqn:H2; apply os_copy2_inv in H2;
    cbn in H2.
  2: { subst σ2. injection Hrun as <- <-. eauto. }
  destruct H2 as (i & Hi & _ & ->).
  rewrite backup_target_index in Hrun by apply made_dir_exists.
  fold (backup_index persist_dir (clock F σ)) in Hrun.
  destruct (os_copy2 F pkl _ _) as [σ3 [[] | e3]] eqn:H3; apply os_copy2_inv in H3;
    cbn in H3.
  2: { subst σ3. injection Hrun as <- <-. right. right. left. eauto. }
  destruct H3 as (s & Hs & _ & ->).
  rewrite backup_target_store in Hrun by apply made_dir_exists.
  fold (backup_store persist_dir (clock F σ)) in Hrun.
  destruct (backup_targets_apart (clock F σ)) as (_ & Hne & _).
  rewrite lookup_insert_ne in Hs by exact Hne.
  injection Hrun as <- <-. right. right. right. exists i, s.
  rewrite <- app_assoc. eauto.
Qed.

Lemma create_backup_frame (σ σ' : St) (r : result string) :
  create_backup F persist_dir σ = (σ', r) ->
  vector_store F σ' = vector_store F σ
  /\ cache F σ' = cache F σ
  /\ clock F σ' = clock F σ
  /\ files (fs F σ') !! idx = files (fs F σ) !! idx
  /\ files (fs F σ') !! pkl = files (fs F σ) !! pkl
  /\ exists evs, trace F σ' = trace F σ ++ evs /\ Forall is_copy evs.
Proof.
  intros Hrun. destruct (path_exists idx (fs F σ)) eqn:Hex.
  - destruct (backup_targets_apart (clock F σ)) as (H1 & H2 & H3 & H4 & _).
    apply create_backup_inv in Hrun
      as [(e & -> & ->) | [(e & -> & ->) | [(e & i & -> & Hi & ->)
         | (i & s & -> & Hi & Hs & ->)]]]; [| | | | exact Hex]; cbn.
    + repeat split; try reflexivity. exists []. rewrite app_nil_r. auto.
    + repeat split; try reflexivity. exists []. rewrite app_nil_r. auto.
    + rewrite !lookup_insert_ne by assumption.
      repeat split; try reflexivity. eexists. split; [reflexivity |].
      repeat constructor.
    + rewrite !lookup_insert_ne by assumption.
      repeat split; try reflexivity. eexists. split; [reflexivity |].
      repeat constructor.
  - rewrite create_backup_skip in Hrun by exact Hex. injection Hrun as <- <-.
    repeat split; try reflexivity. exists []. rewrite app_nil_r. auto.
Qed.

Local Abbreviation add := (add_documents F sha256_hexdigest doc_processor persist_dir).
Local Abbreviation del := (delete_document F persist_dir).
Local Abbreviation chunk := (DocumentProcessor.chunk_documents sha256_hexdigest doc_processor).



(** A backup that is taken holds the live files as they were. *)
Lemma create_backup_snapshot (σ σ1 : St) (msg : string) :
  path_exists idx (fs F σ) = true ->
  create_backup F persist_dir σ = (σ1, Ok msg) ->
  let ts := clock F σ in
  exists i s,
    files (fs F σ) !! idx = Some i
    /\ files (fs F σ) !! pkl = Some s
    /\ msg = "Backup created at " +:+ bp ts
    /\ files (fs F σ1) !! backup_index persist_dir ts = Some i
    /\ files (fs F σ1) !! backup_store persist_dir ts = Some s
    /\ vector_store F σ1 = vector_store F σ
    /\ trace F σ1 = trace F σ ++ [EvCopy idx (backup_index persist_dir ts) i;
                                  EvCopy pkl (backup_store persist_dir ts) s].
Proof.
  intros Hex Hb. cbn zeta.
  destruct (backup_targets_apart (clock F σ)) as (_ & _ & _ & _ & Hne).
  apply create_backup_inv in Hb
    as [(e & [=] & _) | [(e & [=] & _) | [(e & i & [=] & _)
       | (i & s & [= ->] & Hi & Hs & ->)]]]; [| exact Hex].
  exists i, s. cbn. rewrite lookup_insert_eq.
  rewrite lookup_insert_ne by (apply not_eq_sym, Hne). rewrite lookup_insert_eq.
  auto 10.
Qed.


(** Without chunks [add_documents] stops after the backup: index, cache and
    live files stay as they were. *)
Lemma add_nothing_changes_nothing (docs : list Document) (σ σ' : St) (r : result unit) :
  chunk docs = Ok [] ->
  add docs σ = (σ', r) ->
  vector_store F σ' = vector_store F σ /\ cache F σ' = cache F σ.
Proof.
  intros Hc Hrun.
  add_cases Hrun; simplify_eq; try (exfalso; apply Htexts; reflexivity);
    apply create_backup_frame in Hbackup as (Hvs & Hca & _); auto.
Qed.


(** [restore_backup] never touches the cache. *)
Lemma restore_backup_keeps_cache (timestamp : string) (σ σ' : St) (r : result string) :
  restore_backup F persist_dir timestamp σ = (σ', r) ->
  cache F σ' = cache F σ.
Proof.
  unfold restore_backup, _load_or_create_store, _create_new_store, print, log,
    set_vector_store. binds.
  destruct (negb _); [intros [= <- <-]; reflexivity |].
  destruct (os_copy2 F _ _ σ) as [σ1 [[] | e1]] eqn:H1; apply os_copy2_inv in H1.
  2: { intros [= <- <-]. subst. reflexivity. }
  destruct H1 as (d1 & _ & _ & ->).
  destruct (os_copy2 F _ _ _) as [σ2 [[] | e2]] eqn:H2; apply os_copy2_inv in H2.
  2: { intros [= <- <-]. subst. reflexivity. }
  destruct H2 as (d2 & _ & _ & ->). cbn.
  destruct (os_call F _ _) as [σ3 [[] | e3]] eqn:H3; apply os_call_inv in H3.
  2: { destruct H3 as [_ ->]. intros [= <- <-]. reflexivity. }
  destruct H3 as (fs3 & _ & ->). cbn.
  destruct (_ && _); cbn.
  - destruct (load_local F persist_dir fs3); cbn;
      [intros [= <- <-]; reflexivity |].
    destruct (from_texts F _ _); intros [= <- <-]; reflexivity.
  - destruct (from_texts F _ _); intros [= <- <-]; reflexivity.
Qed.

Lemma append_not_self (p x : string) : x <> "" -> p +:+ x <> p.
Proof.
  intros Hx. induction p as [| c p IH]; [exact Hx |].
  rewrite append_cons. intros [= H]. exact (IH H).
Qed.

Lemma index_file_not_persist_dir : idx <> persist_dir.
Proof.
  unfold index_file. rewrite path_join_relative by reflexivity.
  apply append_not_self. unfold separator. destruct (_ || _); discriminate.
Qed.

Lemma store_file_not_persist_dir : pkl <> persist_dir.
Proof.
  unfold store_file. rewrite path_join_relative by reflexivity.
  apply append_not_self. unfold separator. destruct (_ || _); discriminate.
Qed.

Lemma path_exists_after_makedirs (p q : string) (fs0 : FS B) :
  p <> q ->
  path_exists p (mkFS (files fs0) ({[q]} ∪ dirs fs0)) = path_exists p fs0.
Proof.
  intros Hne. unfold path_exists. cbn. f_equal.
  apply bool_decide_ext. rewrite elem_of_union, elem_of_singleton.
  split; [intros [Heq | Hin]; [contradiction | exact Hin] | auto].
Qed.

(** C4, as the code has it: when the persisted files are missing, or
    loading them fails, [_load_or_create_store] returns what
    [FAISS.from_texts] builds from the single text "initialization document"
    with metadata source = initialization, and nothing removes that
    document: wherever building a store from texts yields one row per
    text, the fresh store holds exactly one entry, the dummy document. *)
Theorem load_or_create_keeps_dummy (σ : St) :
  let fs1 := mkFS (files (fs F σ)) ({[persist_dir]} ∪ dirs (fs F σ)) in
  let dummy := mkDocument "initialization document"
                 {["source" := VStr "initialization"]} in
  files (fs F σ) !! persist_dir = None ->
  (path_exists idx (fs F σ) && path_exists pkl (fs F σ) = false
   \/ raises (load_local F persist_dir fs1)) ->
  (forall st, from_texts F [page_content dummy] [metadata dummy] = Ok st ->
     (documents F st).*2 = [dummy]) ->
  (_load_or_create_store F persist_dir σ).2
  = from_texts F ["initialization document"] [{["source" := VStr "initialization"]}]
  /\ forall st, (_load_or_create_store F persist_dir σ).2 = Ok st ->
       (documents F st).*2 = [dummy]
       /\ length (index_to_docstore_id F st) = 1%nat.
Proof.
  cbn zeta. intros Hfile Hfresh Hlib.
  assert (Hrun : (_load_or_create_store F persist_dir σ).2
    = from_texts F ["initialization document"]
        [{["source" := VStr "initialization"]}]).
  { unfold _load_or_create_store, _create_new_store, os_call, print, log, set_fs.
    binds. unfold makedirs. rewrite Hfile. cbn.
    rewrite !path_exists_after_makedirs
      by (apply index_file_not_persist_dir || apply store_file_not_persist_dir).
    destruct (path_exists idx (fs F σ) && path_exists pkl (fs F σ)) eqn:Hex; cbn.
    - destruct Hfresh as [[=] | Hload].
      destruct (load_local F persist_dir _); [destruct Hload |]. cbn. reflexivity.
    - reflexivity. }
  split; [exact Hrun |]. intros st Hst. rewrite Hrun in Hst.
  specialize (Hlib st Hst). split; [exact Hlib |].
  unfold index_to_docstore_id.
  rewrite length_fmap, <- (length_fmap snd), Hlib. reflexivity.
Qed.

(** C5: deleting an id the store does not hold fails: the call raises
    Exception("Error deleting document: ...") (the code has no error class
    of its own), and the in-memory index, the cache and the persisted index
    and store files are as before, so statistics and search results are
    too.  The library is taken by its contract: [delete] rejects an
    unknown id before it removes anything. *)
Theorem delete_unknown_id_fails_and_changes_nothing (σ : St) (id : string) :
  (forall st, id ∉ index_to_docstore_id F st ->
     exists e, delete F st id = (st, Raise e)) ->
  id ∉ index_to_docstore_id F (vector_store F σ) ->
  exists σ' cause,
    del id σ = (σ', Raise (PyExc "Exception" ("Error deleting document: " +:+ cause)))
    /\ vector_store F σ' = vector_store F σ
    /\ cache F σ' = cache F σ
    /\ files (fs F σ') !! idx = files (fs F σ) !! idx
    /\ files (fs F σ') !! pkl = files (fs F σ) !! pkl
    /\ (get_stats F size_of persist_dir σ').2 = (get_stats F size_of persist_dir σ).2
    /\ forall query k filter,
         (similarity_search F query k filter σ').2
         = (similarity_search F query k filter σ).2.
Proof.
  intros Hlib Hid.
  assert (Hmain : exists σ' cause,
    del id σ = (σ', Raise (PyExc "Exception" ("Error deleting document: " +:+ cause)))
    /\ vector_store F σ' = vector_store F σ
    /\ cache F σ' = cache F σ
    /\ files (fs F σ') !! idx = files (fs F σ) !! idx
    /\ files (fs F σ') !! pkl = files (fs F σ) !! pkl).
  { destruct (del id σ) as [σ' r] eqn:Hrun. delete_cases Hrun;
      apply create_backup_frame in Hbackup as (Hvs & Hc & _ & Hi & Hs & _).
    1-3: destruct (Hlib (vector_store F σ1)) as [e Hdel'];
      [rewrite Hvs; exact Hid |]; rewrite Hdel' in Hdel; simplify_eq.
    - eexists _, _. split; [reflexivity |]. cbn. auto.
    - eexists _, _. split; [reflexivity |]. auto. }
  destruct Hmain as (σ' & cause & Hrun & Hvs & Hc & Hi & Hs).
  exists σ', cause. repeat (split; [assumption |]). split.
  - unfold get_stats, getsize. rewrite Hvs, Hi.
    destruct (files (fs F σ) !! idx); reflexivity.
  - intros query k filter. unfold similarity_search, print, log. binds.
    rewrite Hvs. destruct (similarity_search_lib F _ query k filter); reflexivity.
Qed.

(** C7: [similarity_search] never raises.  It returns the empty list
    whenever the library call fails (as it does when the query cannot be
    embedded), and on a store without entries, the library returning only
    documents of the store; the store, the cache and the disk are left as
    they were. *)
Theorem similarity_search_never_raises (σ : St) (query : string) (k : Z)
    (filter : option Metadata) :
  exists results,
    (similarity_search F query k filter σ).2 = Ok results
    /\ (raises (similarity_search_lib F (vector_store F σ) query k filter) ->
        results = [])
    /\ (documents F (vector_store F σ) = [] ->
        (forall docs,
           similarity_search_lib F (vector_store F σ) query k filter = Ok docs ->
           docs ⊆ (documents F (vector_store F σ)).*2) ->
        results = [])
    /\ vector_store F (similarity_search F query k filter σ).1 = vector_store F σ
    /\ cache F (similarity_search F query k filter σ).1 = cache F σ
    /\ fs F (similarity_search F query k filter σ).1 = fs F σ.
Proof.
  unfold similarity_search, print, log. binds.
  destruct (similarity_search_lib F _ query k filter) as [docs | e] eqn:Hlib; cbn.
  - exists docs. split; [reflexivity |]. split; [intros [] |].
    split; [| auto]. intros Hempty Hsound.
    specialize (Hsound docs eq_refl). rewrite Hempty in Hsound.
    destruct docs as [| doc docs]; [reflexivity |].
    exfalso. apply (not_elem_of_nil doc), Hsound. left.
  - exists []. auto 10.
Qed.

End VectorStoreProperties.

(** ** The reference library meets the contracts the theorems assume *)

Section ReferenceContracts.
Import OS VectorStore Reference.
Variable faults : Faults.

Lemma list_delete_unknown (id : string) (st : Table) :
  id ∉ index_to_docstore_id (ListFaiss faults) st ->
  exists e, delete (ListFaiss faults) st id = (st, Raise e).
Proof.
  unfold index_to_docstore_id. cbn. unfold list_delete. intros Hid.
  rewrite bool_decide_eq_false_2 by exact Hid. eauto.
Qed.

Lemma list_from_texts_dummy (st : Table) :
  from_texts (ListFaiss faults)
    [page_content Examples.dummy_document] [metadata Examples.dummy_document]
  = Ok st ->
  (documents (ListFaiss faults) st).*2 = [Examples.dummy_document].
Proof.
  cbn. unfold list_from_texts, list_add_texts.
  destruct (embedding_down faults); [discriminate |].
  intros [= <-]. reflexivity.
Qed.

End ReferenceContracts.

(** ** The properties at concrete runs *)

Section Runs.
Import OS VectorStore Reference Examples.


Lemma run_ok {S A : Type} (run : S * result A) (a : A) :
  run.2 = Ok a -> run = (run.1, Ok a).
Proof. destruct run as [σ r]. cbn. intros ->. reflexivity. Qed.






(** C4, as stated, fails: over an empty directory, and over files that
    cannot be read back, the store that is returned still holds the
    initialization document: one entry, not zero. *)
Lemma fresh_store_holds_the_dummy :
  (_load_or_create_store (ListFaiss no_faults) persist_dir (blank_state no_faults)).2
  = Ok dummy_table
  /\ (_load_or_create_store (ListFaiss no_faults) persist_dir (corrupt_state no_faults)).2
     = Ok dummy_table
  /\ documents (ListFaiss no_faults) dummy_table = [("doc-0", dummy_document)]
  /\ ntotal (ListFaiss no_faults) dummy_table = 1.
Proof. repeat split; vm_compute; reflexivity. Qed.

(** Over an empty directory the store is the one built from the dummy. *)
Lemma load_or_create_keeps_dummy_witness :
  (_load_or_create_store (ListFaiss no_faults) persist_dir (blank_state no_faults)).2
  = from_texts (ListFaiss no_faults) ["initialization document"]
      [{["source" := VStr "initialization"]}].
Proof.
  refine (proj1 (load_or_create_keeps_dummy (ListFaiss no_faults) persist_dir
                   (blank_state no_faults) _ _ _)).
  - reflexivity.
  - left. vm_compute. reflexivity.
  - apply list_from_texts_dummy.
Defined.

(** Deleting "doc-9" from a store that holds only "doc-0". *)
Lemma delete_unknown_id_fails_and_changes_nothing_witness :
  exists σ' cause,
    delete_unknown
    = (σ', Raise (PyExc "Exception" ("Error deleting document: " +:+ cause)))
    /\ vector_store _ σ' = dummy_table.
Proof.
  destruct (delete_unknown_id_fails_and_changes_nothing (ListFaiss no_faults)
              blob_size persist_dir (persisted_state no_faults) "doc-9")
    as (σ' & cause & Hrun & Hvs & _).
  - intros st. apply list_delete_unknown.
  - vm_compute. apply not_elem_of_cons. split; [discriminate | apply not_elem_of_nil].
  - exists σ', cause. split; [exact Hrun | exact Hvs].
Defined.

End Runs.


(** ** More on the cache *)

Section CacheRoundTrips.
Context {V : Type}.

(** X1: Reading a key back after [Cache.set]: the value is served at every
    instant before the expiry the call fixed (the given ttl, or the default
    when the ttl is None or 0) and at no instant from then on, whatever the
    key held before; every other key reads as it did. *)
Theorem get_after_set (self : Cache.Cache V) (key : string) (value : V)
    (t : option Z) (now at_ : Z) :
  Cache.get (Cache.set self key value t now) key at_
  = (if at_ <? now + Cache.ttl_or t (Cache.ttl self) then Some value else None)
  /\ (forall other, other <> key ->
        Cache.get (Cache.set self key value t now) other at_
        = Cache.get self other at_)
  /\ Cache.ttl (Cache.set self key value t now) = Cache.ttl self.
Proof.
  unfold Cache.get, Cache.set; cbn. split; [| split; [| reflexivity]].
  - rewrite lookup_insert_eq. reflexivity.
  - intros other Hne. rewrite lookup_insert_ne by auto. reflexivity.
Qed.

(** X2: After [Cache.delete(key)] the key is absent, also when it was set just
    before, and every other key reads as it did; after [clear] no key is
    served. *)
Theorem get_after_delete (self : Cache.Cache V) (key : string) (value : V)
    (t : option Z) (now at_ : Z) :
  Cache.get (Cache.delete self key) key at_ = None
  /\ Cache.get (Cache.delete (Cache.set self key value t now) key) key at_ = None
  /\ (forall other, other <> key ->
        Cache.get (Cache.delete self key) other at_ = Cache.get self other at_)
  /\ (forall any, Cache.get (Cache.clear self) any at_ = None).
Proof.
  unfold Cache.get, Cache.delete, Cache.set, Cache.clear; cbn.
  repeat split.
  - rewrite lookup_delete_eq. reflexivity.
  - rewrite lookup_delete_eq. reflexivity.
  - intros other Hne. rewrite lookup_delete_ne by auto. reflexivity.
Qed.

End CacheRoundTrips.

(** ** Memoization *)

Section MemoizeProperties.
Import Memoize.
Context {Args W : Type}.
Variable str_args : Args -> string.
Variable str_kwargs : Args -> string.

Local Abbreviation key_of := (cache_key str_args str_kwargs).
Local Abbreviation wrap_call := (wrapper str_args str_kwargs).

(** X3: A value computed on a miss is what every later call under the same key
    gets until it expires, one default TTL after it was stored: the later
    call may come from another function with the same name, or at a time
    when the function would return something else; the function is not
    consulted and the cache is not written. *)
Theorem memoize_serves_the_stored_value (self : Cache.Cache (option W))
    (f g : PyFunc Args W) (args args' : Args) (v : W) (now later now' later' : Z) :
  mjoin (Cache.get self (key_of f args) now) = None ->
  call f args = Ok (Some v) ->
  key_of g args' = key_of f args ->
  now' < later + Cache.ttl self ->
  let first := wrap_call self f args now later in
  first.2 = Ok (Some v)
  /\ wrap_call first.1 g args' now' later' = (first.1, Ok (Some v)).
Proof.
  intros Hmiss Hf Hkey Hfresh. cbn zeta. unfold wrapper.
  rewrite Hmiss, Hf. cbn. split; [reflexivity |].
  rewrite Hkey. unfold Cache.get, Cache.set; cbn.
  rewrite lookup_insert_eq.
  destruct (Z.ltb_spec now' (later + Cache.ttl self)); [reflexivity | lia].
Qed.

(** X4: What is not served is recomputed: when the stored value is [None], or
    the entry has expired, or there is none, the call returns what the
    function returns now, stores it under the default TTL, and passes an
    exception on without touching the cache. *)
Theorem memoize_recomputes_none_and_expired (self : Cache.Cache (option W))
    (f g : PyFunc Args W) (args : Args) (now later now' later' : Z) :
  mjoin (Cache.get self (key_of f args) now) = None ->
  call f args = Ok None ->
  let first := wrap_call self f args now later in
  first.2 = Ok None
  /\ (forall args', key_of g args' = key_of f args ->
        (wrap_call first.1 g args' now' later').2 = call g args')
  /\ (forall args' r, key_of g args' = key_of f args ->
        call g args' = Ok r ->
        Cache.cache (wrap_call first.1 g args' now' later').1 !! key_of f args
        = Some (r, later' + Cache.ttl self))
  /\ (forall args' e, key_of g args' = key_of f args ->
        call g args' = Raise e ->
        wrap_call first.1 g args' now' later' = (first.1, Raise e)).
Proof.
  intros Hmiss Hf. cbn zeta.
  assert (Hfirst : wrap_call self f args now later
                   = (Cache.set self (key_of f args) None None later, Ok None)).
  { unfold wrapper. rewrite Hmiss, Hf. reflexivity. }
  rewrite Hfirst. cbn [fst snd]. split; [reflexivity |].
  assert (Hnone : forall args', key_of g args' = key_of f args ->
    mjoin (Cache.get (Cache.set self (key_of f args) None None later)
             (key_of g args') now') = None).
  { intros args' ->. unfold Cache.get, Cache.set; cbn.
    rewrite lookup_insert_eq. destruct (_ <? _); reflexivity. }
  repeat split.
  - intros args' Hk. unfold wrapper. rewrite (Hnone args' Hk).
    destruct (call g args'); reflexivity.
  - intros args' r Hk Hg. unfold wrapper. rewrite (Hnone args' Hk), Hg. cbn.
    rewrite Hk. apply lookup_insert_eq.
  - intros args' e Hk Hg. unfold wrapper. rewrite (Hnone args' Hk), Hg.
    reflexivity.
Qed.

End MemoizeProperties.


(** ** Chunk statistics *)

Section ChunkStatsProperties.
Import DocumentProcessor.






End ChunkStatsProperties.


(** ** Suffixes *)

Section SuffixProperties.

Lemma length_append (a b : string) :
  String.length (a +:+ b) = (String.length a + String.length b)%nat.
Proof.
  induction a as [| c a IH]; [reflexivity |].
  rewrite append_cons. cbn. rewrite IH. reflexivity.
Qed.

Lemma substring_whole (s : string) : String.substring 0 (String.length s) s = s.
Proof. induction s as [| c s IH]; [reflexivity |]. cbn. rewrite IH. reflexivity. Qed.

Lemma substring_after_prefix (p s : string) :
  String.substring (String.length p) (String.length s) (p +:+ s) = s.
Proof.
  induction p as [| c p IH]; [apply substring_whole |].
  rewrite append_cons. cbn. exact IH.
Qed.

Lemma substring_split (s : string) (k m : nat) :
  (k + m)%nat = String.length s ->
  s = String.substring 0 k s +:+ String.substring k m s.
Proof.
  revert k m. induction s as [| c s IH]; intros k m Hkm; cbn in Hkm.
  - destruct k, m; try discriminate. reflexivity.
  - destruct k as [| k].
    + cbn in Hkm. subst m. cbn. rewrite substring_whole. reflexivity.
    + cbn. rewrite append_cons. f_equal. apply IH. lia.
Qed.

(** [s.endswith(suffix)] holds exactly when [s] is something followed by
    [suffix]. *)
Lemma endswith_iff (s suffix : string) :
  endswith s suffix = true <-> exists p, s = p +:+ suffix.
Proof.
  unfold endswith. rewrite andb_true_iff, Nat.leb_le, bool_decide_eq_true. split.
  - intros [Hle Hsub].
    exists (String.substring 0 (String.length s - String.length suffix) s).
    pose proof (substring_split s (String.length s - String.length suffix)
                  (String.length suffix)) as Hsplit.
    rewrite Hsub in Hsplit. apply Hsplit. lia.
  - intros [p ->]. rewrite length_append. split; [lia |].
    replace (String.length p + String.length suffix - String.length suffix)%nat
      with (String.length p) by lia.
    apply substring_after_prefix.
Qed.

Lemma endswith_longer_suffix (s x y : string) :
  endswith s (x +:+ y) = true -> endswith s y = true.
Proof.
  rewrite !endswith_iff. intros [p ->]. exists (p +:+ x).
  rewrite append_assoc. reflexivity.
Qed.

End SuffixProperties.

(** ** More on the web search *)

Section KenyanWebSearchEdges.
Import KenyanWebSearch.
Variable urlparse_netloc : string -> string.
Variable str_lower : string -> string.
Variable ddgs_text : string -> Z -> result (list (gmap string string)).

(** X6: The five allow-listed suffixes accept exactly the urls whose lower-cased
    network location ends in ".ke": each of the other four ends in ".ke"
    itself. *)
Theorem is_kenyan_domain_is_dot_ke (url : string) :
  is_kenyan_domain urlparse_netloc str_lower url
  = endswith (str_lower (urlparse_netloc url)) ".ke".
Proof.
  unfold is_kenyan_domain, Config.KENYA_DOMAINS. cbn [existsb].
  destruct (endswith _ ".ke") eqn:Hke; [reflexivity |].
  assert (Hno : forall x, endswith (str_lower (urlparse_netloc url)) (x +:+ ".ke")
                          = false).
  { intros x. destruct (endswith _ (x +:+ ".ke")) eqn:Hx; [| reflexivity].
    apply endswith_longer_suffix in Hx. congruence. }
  rewrite (Hno "co" : endswith _ "co.ke" = false),
    (Hno "ac" : endswith _ "ac.ke" = false),
    (Hno "go" : endswith _ "go.ke" = false),
    (Hno "or" : endswith _ "or.ke" = false).
  reflexivity.
Qed.

Lemma visit_all_app (max_results : Z) (pre post : list (gmap string string)) :
  forall acc,
    visit_all urlparse_netloc str_lower max_results acc (pre ++ post)
    = (acc' ← visit_all urlparse_netloc str_lower max_results acc pre;
       visit_all urlparse_netloc str_lower max_results acc' post).
Proof.
  induction pre as [| r pre IH]; intros acc; [reflexivity |].
  cbn [app visit_all].
  destruct (visit urlparse_netloc str_lower max_results acc r) as [acc' | e];
    [apply IH | reflexivity].
Qed.

(** X7: With no quota ([max_results <= 0]) nothing is returned, however many
    Kenyan hits the provider has. *)
Theorem search_without_quota_is_empty (query : string) (max_results : Z)
    (hits : list (gmap string string)) :
  max_results <= 0 ->
  ddgs_text query 20 = Ok hits ->
  Forall well_formed hits ->
  search urlparse_netloc str_lower ddgs_text query max_results = Ok [].
Proof.
  intros Hmax Hhits Hwf. unfold search. rewrite Hhits. cbn [mbind result_bind].
  rewrite (visit_all_filter _ _ _ _ Hwf). cbn [length app].
  replace (Z.to_nat (max_results - Z.of_nat 0)) with O by lia. reflexivity.
Qed.

(** X8: Every hit's link is read, also after enough results were collected: a
    hit without the key "link" makes the search raise KeyError, wherever it
    stands among well-formed hits and whatever max_results is; no result is
    returned. *)
Theorem search_raises_on_hit_without_link (query : string) (max_results : Z)
    (pre post : list (gmap string string)) (r : gmap string string) :
  ddgs_text query 20 = Ok (pre ++ r :: post) ->
  Forall well_formed pre ->
  r !! "link" = None ->
  search urlparse_netloc str_lower ddgs_text query max_results
  = Raise (PyExc "KeyError" "'link'").
Proof.
  intros Hhits Hwf Hlink. unfold search. rewrite Hhits. cbn [mbind result_bind].
  rewrite visit_all_app, (visit_all_filter _ _ _ _ Hwf).
  cbn [mbind result_bind visit_all]. unfold visit, getitem. rewrite Hlink.
  reflexivity.
Qed.

End KenyanWebSearchEdges.

(** ** Loading and chunking a file *)

Section FileProcessingProperties.
Import DocumentProcessor FileProcessing.
Variable PyPDFLoader_load : string -> result (list Document).
Variable TextLoader_load : string -> result (list Document).
Variable sha256_hexdigest : string -> string.

(** X9: [process_file] reads the file with the PDF loader exactly when the path
    ends in lower-case ".pdf" and with the text loader otherwise, then chunks
    what was loaded.  A loader error is re-raised as Exception("Error
    processing file: ..."), a splitter error with both prefixes, "Error
    processing file: Error chunking documents: ...", and otherwise the
    result is that of [chunk_documents] on the loaded documents. *)
Theorem process_file_loads_then_chunks (self : DocumentProcessor)
    (file_path : string) :
  let load := if endswith file_path ".pdf" then PyPDFLoader_load
              else TextLoader_load in
  (forall e, load file_path = Raise e ->
     process_file PyPDFLoader_load TextLoader_load sha256_hexdigest self file_path
     = Raise (PyExc "Exception" ("Error processing file: " +:+ exn_msg e)))
  /\ (forall docs e, load file_path = Ok docs ->
        split_documents (text_splitter self) docs = Raise e ->
        process_file PyPDFLoader_load TextLoader_load sha256_hexdigest self file_path
        = Raise (PyExc "Exception"
                   ("Error processing file: Error chunking documents: "
                    +:+ exn_msg e)))
  /\ (forall docs chunks, load file_path = Ok docs ->
        chunk_documents sha256_hexdigest self docs = Ok chunks ->
        process_file PyPDFLoader_load TextLoader_load sha256_hexdigest self file_path
        = Ok chunks).
Proof.
  cbn zeta. unfold process_file.
  destruct (endswith file_path ".pdf"); repeat split.
  all: try (intros e He; rewrite He; reflexivity).
  all: try (intros docs e Hd He; rewrite Hd; cbn [mbind result_bind];
            rewrite (chunk_documents_raise _ _ _ _ He); reflexivity).
  all: intros docs chunks Hd Hc; rewrite Hd; cbn [mbind result_bind];
    rewrite Hc; reflexivity.
Qed.

End FileProcessingProperties.


(** ** More on the vector store: backups and restores *)

Section VectorStoreBackups.
Import OS VectorStore.
Local Set Default Proof Using "Type".
Context {B V : Type} (F : Faiss B).
Variable sha256_hexdigest : string -> string.
Variable doc_processor : DocumentProcessor.DocumentProcessor.
Variable persist_dir : string.

Local Abbreviation St := (@State B V F).
Local Abbreviation idx := (index_file persist_dir).
Local Abbreviation pkl := (store_file persist_dir).
Local Abbreviation bp := (backup_path persist_dir).
Local Abbreviation bidx := (backup_index persist_dir).
Local Abbreviation bpkl := (backup_store persist_dir).
Local Abbreviation dummy_texts := ["initialization document"].
Local Abbreviation dummy_metadatas := [{["source" := VStr "initialization"]} : Metadata].

#[local] Arguments path_join : simpl never.
#[local] Arguments index_file : simpl never.
#[local] Arguments store_file : simpl never.
#[local] Arguments backup_dir : simpl never.
#[local] Arguments backup_path : simpl never.
#[local] Arguments backup_index : simpl never.
#[local] Arguments backup_store : simpl never.
#[local] Arguments makedirs : simpl never.
#[local] Arguments copy2 : simpl never.
#[local] Arguments copy_target : simpl never.
#[local] Arguments path_exists : simpl never.

Local Abbreviation with_persist_dir := (Restore.with_persist_dir persist_dir).
Local Abbreviation restored_files := (Restore.restored_files F persist_dir).

(** What [_load_or_create_store] does from a state in which [persist_dir]
    is no regular file. *)
Lemma load_or_create_run (σ : St) :
  files (fs F σ) !! persist_dir = None ->
  let fs1 := with_persist_dir (fs F σ) in
  _load_or_create_store F persist_dir σ
  = if path_exists idx (fs F σ) && path_exists pkl (fs F σ)
    then match load_local F persist_dir fs1 with
         | Ok st =>
             (mkState F (vector_store F σ) (cache F σ) fs1 (clock F σ)
                (trace F σ ++ [EvLoadLocal persist_dir]), Ok st)
         | Raise e =>
             (mkState F (vector_store F σ) (cache F σ) fs1 (clock F σ)
                ((trace F σ ++ [EvLoadLocal persist_dir])
                 ++ [EvPrint ("Error loading existing store: " +:+ exn_msg e)]),
              from_texts F dummy_texts dummy_metadatas)
         end
    else (mkState F (vector_store F σ) (cache F σ) fs1 (clock F σ) (trace F σ),
          from_texts F dummy_texts dummy_metadatas).
Proof.
  intros Hfile. cbn zeta.
  unfold _load_or_create_store, _create_new_store, os_call, print, log, set_fs.
  binds. unfold makedirs. rewrite Hfile. cbn.
  rewrite !path_exists_after_makedirs
    by (apply index_file_not_persist_dir || apply store_file_not_persist_dir).
  destruct (path_exists idx (fs F σ) && path_exists pkl (fs F σ)); cbn;
    [| reflexivity].
  unfold with_persist_dir.
  destruct (load_local F persist_dir _); reflexivity.
Qed.

Lemma load_or_create_blocked (σ : St) (data : B) :
  files (fs F σ) !! persist_dir = Some data ->
  _load_or_create_store F persist_dir σ
  = (σ, Raise (PyExc "FileExistsError" persist_dir)).
Proof.
  intros Hfile.
  unfold _load_or_create_store, os_call, set_fs. binds.
  unfold makedirs. rewrite Hfile. reflexivity.
Qed.

Lemma copy_target_file (src dst : string) (fs0 : FS B) :
  dst ∉ dirs fs0 -> copy_target src dst fs0 = dst.
Proof. intros H. unfold copy_target. rewrite bool_decide_eq_false_2; auto. Qed.

Lemma os_copy2_file (src dst : string) (data : B) (σ : St) :
  files (fs F σ) !! src = Some data ->
  dst ∉ dirs (fs F σ) ->
  dst <> src ->
  os_copy2 F src dst σ
  = (mkState F (vector_store F σ) (cache F σ)
       (mkFS (<[dst := data]> (files (fs F σ))) (dirs (fs F σ)))
       (clock F σ) (trace F σ ++ [EvCopy src dst data]), Ok tt).
Proof.
  intros Hsrc Hdst Hne. unfold os_copy2, os_call, set_fs, log. binds.
  unfold copy2. rewrite Hsrc, (copy_target_file _ _ _ Hdst).
  rewrite bool_decide_eq_false_2 by exact Hne. reflexivity.
Qed.

Lemma os_copy2_missing (src dst : string) (σ : St) :
  files (fs F σ) !! src = None ->
  os_copy2 F src dst σ = (σ, Raise (PyExc "FileNotFoundError" src)).
Proof.
  intros Hsrc. unfold os_copy2, os_call, set_fs, log. binds.
  unfold copy2. rewrite Hsrc. reflexivity.
Qed.

Lemma restore_backup_copies (timestamp : string) (i s : B) (σ : St) :
  path_exists (bp timestamp) (fs F σ) = true ->
  files (fs F σ) !! bidx timestamp = Some i ->
  files (fs F σ) !! bpkl timestamp = Some s ->
  idx ∉ dirs (fs F σ) ->
  pkl ∉ dirs (fs F σ) ->
  restore_backup F persist_dir timestamp σ
  = match _load_or_create_store F persist_dir (restored_files timestamp i s σ) with
    | (σ', Ok st) =>
        (mkState F st (cache F σ') (fs F σ') (clock F σ') (trace F σ'),
         Ok ("Restored from backup " +:+ timestamp))
    | (σ', Raise e) => (σ', Raise e)
    end.
Proof.
  intros Hex Hi Hs Hidx Hpkl.
  destruct (backup_targets_apart persist_dir timestamp) as (Hbi & _ & Hbsi & Hbs & _).
  unfold restore_backup. binds.
  fold (bp timestamp) (bidx timestamp) (bpkl timestamp).
  rewrite Hex. cbn.
  rewrite (os_copy2_file _ _ i) by (auto using not_eq_sym).
  rewrite (os_copy2_file _ _ s);
    [| cbn; rewrite lookup_insert_ne by (apply not_eq_sym, Hbsi); exact Hs
     | exact Hpkl | apply not_eq_sym, Hbs].
  cbn. unfold restored_files, set_vector_store. rewrite <- app_assoc. cbn.
  destruct (_load_or_create_store F persist_dir _) as [σ' [st | e]]; reflexivity.
Qed.

Lemma load_or_create_frame (σ : St) :
  files (fs F (_load_or_create_store F persist_dir σ).1) = files (fs F σ)
  /\ cache F (_load_or_create_store F persist_dir σ).1 = cache F σ
  /\ vector_store F (_load_or_create_store F persist_dir σ).1 = vector_store F σ.
Proof.
  destruct (files (fs F σ) !! persist_dir) as [data |] eqn:Hfile.
  - rewrite (load_or_create_blocked σ data Hfile). auto.
  - rewrite (load_or_create_run σ Hfile).
    destruct (_ && _); [destruct (load_local F persist_dir _) |]; cbn; auto.
Qed.

(** X10: A backup followed by a restore of its timestamp brings the persisted
    index and store files back to what they were when the backup was taken,
    whatever was written to them in between; the backup files stay, and the
    cache is not touched. *)
Theorem backup_then_restore_round_trip (σ σ1 σ2 : St) (msg ts : string) :
  clock F σ = ts ->
  path_exists idx (fs F σ) = true ->
  create_backup F persist_dir σ = (σ1, Ok msg) ->
  files (fs F σ2) !! bidx ts = files (fs F σ1) !! bidx ts ->
  files (fs F σ2) !! bpkl ts = files (fs F σ1) !! bpkl ts ->
  path_exists (bp ts) (fs F σ2) = true ->
  idx ∉ dirs (fs F σ2) ->
  pkl ∉ dirs (fs F σ2) ->
  let after := (restore_backup F persist_dir ts σ2).1 in
  files (fs F after) !! idx = files (fs F σ) !! idx
  /\ files (fs F after) !! pkl = files (fs F σ) !! pkl
  /\ files (fs F after) !! bidx ts = files (fs F σ) !! idx
  /\ files (fs F after) !! bpkl ts = files (fs F σ) !! pkl
  /\ cache F after = cache F σ2.
Proof.
  intros <- Hex Hbackup Hbi Hbs Hbp Hidx Hpkl. cbn zeta.
  destruct (create_backup_snapshot F persist_dir σ σ1 msg Hex Hbackup)
    as (i & s & Hi & Hs & _ & Hi1 & Hs1 & _).
  rewrite Hi1 in Hbi. rewrite Hs1 in Hbs.
  destruct (backup_targets_apart persist_dir (clock F σ))
    as (Hbi_i & Hbi_s & Hbs_i & Hbs_s & _).
  rewrite (restore_backup_copies _ i s σ2 Hbp Hbi Hbs Hidx Hpkl).
  destruct (load_or_create_frame (restored_files (clock F σ) i s σ2))
    as (Hfiles & Hcache & _).
  destruct (_load_or_create_store F persist_dir _) as [σ' [st | e]];
    cbn in Hfiles, Hcache |- *; rewrite Hfiles, Hcache, Hi, Hs.
  all: rewrite lookup_insert_eq.
  all: rewrite (lookup_insert_ne _ pkl idx) by (unfold index_file, store_file;
         rewrite !path_join_relative by reflexivity;
         intros H; do 2 apply append_cancel in H; discriminate H).
  all: rewrite lookup_insert_eq.
  all: rewrite !lookup_insert_ne by auto using not_eq_sym.
  all: auto.
Qed.

(** X11: What a restore reports and installs once both files are copied back:
    the store the library loads from them; if they cannot be loaded, the
    failure is only printed, a fresh store with the initialization document
    is installed and the restore still reports success; it raises only when
    that fresh store cannot be built, and then keeps the old store. *)
Theorem restore_backup_reloads_or_starts_over (timestamp : string) (i s : B) (σ : St) :
  path_exists (bp timestamp) (fs F σ) = true ->
  files (fs F σ) !! bidx timestamp = Some i ->
  files (fs F σ) !! bpkl timestamp = Some s ->
  idx ∉ dirs (fs F σ) ->
  pkl ∉ dirs (fs F σ) ->
  files (fs F σ) !! persist_dir = None ->
  let run := restore_backup F persist_dir timestamp σ in
  let restored := with_persist_dir (fs F (restored_files timestamp i s σ)) in
  match load_local F persist_dir restored with
  | Ok st =>
      run.2 = Ok ("Restored from backup " +:+ timestamp)
      /\ vector_store F run.1 = st
  | Raise e =>
      match from_texts F dummy_texts dummy_metadatas with
      | Ok fresh =>
          run.2 = Ok ("Restored from backup " +:+ timestamp)
          /\ vector_store F run.1 = fresh
          /\ EvPrint ("Error loading existing store: " +:+ exn_msg e)
             ∈ trace F run.1
      | Raise e' => run.2 = Raise e' /\ vector_store F run.1 = vector_store F σ
      end
  end.
Proof.
  cbn zeta. intros Hbp Hbi Hbs Hidx Hpkl Hfile.
  rewrite (restore_backup_copies _ i s σ Hbp Hbi Hbs Hidx Hpkl).
  assert (Hfile' : files (fs F (restored_files timestamp i s σ)) !! persist_dir = None).
  { cbn. rewrite !lookup_insert_ne
      by (apply index_file_not_persist_dir || apply store_file_not_persist_dir).
    exact Hfile. }
  rewrite (load_or_create_run _ Hfile').
  assert (Hex : path_exists idx (fs F (restored_files timestamp i s σ))
                && path_exists pkl (fs F (restored_files timestamp i s σ)) = true).
  { unfold path_exists. cbn. rewrite lookup_insert_eq.
    assert (Hne : pkl <> idx).
    { unfold index_file, store_file. rewrite !path_join_relative by reflexivity.
      intros H. do 2 apply append_cancel in H. discriminate H. }
    rewrite (lookup_insert_ne _ pkl idx) by exact Hne.
    rewrite lookup_insert_eq.
    rewrite !bool_decide_eq_true_2 by eauto. reflexivity. }
  rewrite Hex.
  destruct (load_local F persist_dir _) as [st | e]; cbn; [auto |].
  destruct (from_texts F _ _) as [fresh | e']; cbn; [| auto].
  repeat split. apply elem_of_app. right. left.
Qed.

(** X12: A restore that finds no index file in the backup writes nothing: when
    the backup directory does not exist it answers "Backup ... not found"
    and raises nothing; when the directory exists it raises the
    FileNotFoundError of the copy, not wrapped in any message of the
    store's own. *)
Theorem restore_backup_without_index_changes_nothing (timestamp : string) (σ : St) :
  files (fs F σ) !! bidx timestamp = None ->
  if path_exists (bp timestamp) (fs F σ)
  then exists e, restore_backup F persist_dir timestamp σ = (σ, Raise e)
                 /\ exn_class e = "FileNotFoundError"
  else restore_backup F persist_dir timestamp σ
       = (σ, Ok ("Backup " +:+ timestamp +:+ " not found")).
Proof.
  intros Hnone. unfold restore_backup. binds.
  fold (bp timestamp) (bidx timestamp).
  destruct (path_exists (bp timestamp) (fs F σ)); [| reflexivity].
  cbn. rewrite (os_copy2_missing _ _ _ Hnone). eexists. split; reflexivity.
Qed.

(** X13: A restore is not atomic: from a backup that holds the index file and
    lacks the store file it raises FileNotFoundError after the live index
    file was replaced.  The persisted index is then the backup's, while the
    persisted store file, the in-memory store and the cache are the current
    ones. *)
Theorem restore_backup_stops_half_way (timestamp : string) (i : B) (σ : St) :
  path_exists (bp timestamp) (fs F σ) = true ->
  files (fs F σ) !! bidx timestamp = Some i ->
  files (fs F σ) !! bpkl timestamp = None ->
  idx ∉ dirs (fs F σ) ->
  exists e,
    restore_backup F persist_dir timestamp σ
    = (mkState F (vector_store F σ) (cache F σ)
         (mkFS (<[idx := i]> (files (fs F σ))) (dirs (fs F σ)))
         (clock F σ) (trace F σ ++ [EvCopy (bidx timestamp) idx i]),
       Raise e)
    /\ exn_class e = "FileNotFoundError".
Proof.
  destruct (backup_targets_apart persist_dir timestamp) as (Hbi & _ & Hbsi & Hbs & _).
  intros Hbp Hi Hnone Hidx. unfold restore_backup. binds.
  fold (bp timestamp) (bidx timestamp) (bpkl timestamp). rewrite Hbp. cbn.
  rewrite (os_copy2_file _ _ i) by (auto using not_eq_sym).
  rewrite os_copy2_missing
    by (cbn; rewrite lookup_insert_ne by (apply not_eq_sym, Hbsi); exact Hnone).
  eexists. split; reflexivity.
Qed.

(** X14: A second backup under the same timestamp (the clock has a resolution of
    one second) replaces the first: afterwards the backup holds the live
    files as they are at the second call, and what the first call had saved
    is gone. *)
Theorem second_backup_replaces_first (σ σ1 σ2 σ3 : St) (m1 m2 ts : string) :
  clock F σ = ts ->
  path_exists idx (fs F σ) = true ->
  create_backup F persist_dir σ = (σ1, Ok m1) ->
  clock F σ2 = ts ->
  path_exists idx (fs F σ2) = true ->
  create_backup F persist_dir σ2 = (σ3, Ok m2) ->
  files (fs F σ1) !! bidx ts = files (fs F σ) !! idx
  /\ files (fs F σ1) !! bpkl ts = files (fs F σ) !! pkl
  /\ files (fs F σ3) !! bidx ts = files (fs F σ2) !! idx
  /\ files (fs F σ3) !! bpkl ts = files (fs F σ2) !! pkl
  /\ m2 = m1.
Proof.
  intros <- Hex Hb1 Hclock Hex2 Hb2.
  destruct (create_backup_snapshot F persist_dir σ σ1 m1 Hex Hb1)
    as (i & s & Hi & Hs & -> & Hi1 & Hs1 & _).
  destruct (create_backup_snapshot F persist_dir σ2 σ3 m2 Hex2 Hb2)
    as (i2 & s2 & Hi2 & Hs2 & -> & Hi3 & Hs3 & _).
  rewrite Hclock in Hi3, Hs3 |- *.
  rewrite Hi, Hs, Hi1, Hs1, Hi2, Hs2, Hi3, Hs3. auto.
Qed.

(** X15: [create_backup] only ever adds copies: whether it returns or raises,
    the in-memory store, the cache, the clock and the live index and store
    files are as before and the log grew by completed copies only; without
    an index file it returns the message "No vector store to backup" and
    changes nothing at all. *)
Theorem create_backup_only_adds_copies (σ : St) :
  let run := create_backup F persist_dir σ in
  vector_store F run.1 = vector_store F σ
  /\ cache F run.1 = cache F σ
  /\ files (fs F run.1) !! idx = files (fs F σ) !! idx
  /\ files (fs F run.1) !! pkl = files (fs F σ) !! pkl
  /\ (exists evs, trace F run.1 = trace F σ ++ evs /\ Forall is_copy evs)
  /\ (path_exists idx (fs F σ) = false ->
      run = (σ, Ok "No vector store to backup")).
Proof.
  cbn zeta.
  destruct (create_backup F persist_dir σ) as [σ' r] eqn:Hrun.
  pose proof (create_backup_frame F persist_dir σ σ' r Hrun)
    as (Hvs & Hc & _ & Hi & Hs & Hev).
  cbn. repeat (split; [assumption |]).
  intros Hnone. rewrite <- Hrun. apply create_backup_skip, Hnone.
Qed.

(** X16: When the splitter fails, [add_documents] raises with both prefixes,
    "Error adding documents: Error chunking documents: ...", and has done
    nothing: no backup, no log entry, the state is the one it started
    from. *)
Theorem add_documents_chunking_failure (docs : list Document) (e : exn) (σ : St) :
  DocumentProcessor.split_documents
    (DocumentProcessor.text_splitter doc_processor) docs = Raise e ->
  add_documents F sha256_hexdigest doc_processor persist_dir docs σ
  = (σ, Raise (PyExc "Exception"
                 ("Error adding documents: Error chunking documents: "
                  +:+ exn_msg e))).
Proof.
  intros Hsplit. unfold add_documents. binds.
  rewrite (chunk_documents_raise _ _ _ _ Hsplit). reflexivity.
Qed.

End VectorStoreBackups.

Section RAGAgentProperties.
Import OS VectorStore RAGAgent.
Local Set Default Proof Using "Type".
Context {B V Mem : Type} (F : Faiss B).
Variable urlparse_netloc : string -> string.
Variable str_lower : string -> string.
Variable ddgs_text : string -> Z -> result (list (gmap string string)).
Variable sha256_hexdigest : string -> string.
Variable doc_processor : DocumentProcessor.DocumentProcessor.
Variable persist_dir : string.
Variable chain : State (V := V) F -> Mem -> string -> Mem * result ChainResponse.

Local Abbreviation respond :=
  (get_response F urlparse_netloc str_lower ddgs_text chain).
Local Abbreviation ask := (ask_chain F chain).
Local Abbreviation web_search :=
  (KenyanWebSearch.search urlparse_netloc str_lower ddgs_text).

(** The store's search as the agent sees it: the state it leaves and the
    documents it returns. *)
Lemma similarity_search_run (query : string) (σ : State (V := V) F) :
  similarity_search F query 4 None σ
  = match similarity_search_lib F (vector_store F σ) query 4 None with
    | Ok docs => (σ, Ok docs)
    | Raise e =>
        (mkState F (vector_store F σ) (cache F σ) (fs F σ) (clock F σ)
           (trace F σ ++ [EvPrint ("Search error: " +:+ exn_msg e)]),
         Ok [])
    end.
Proof.
  unfold similarity_search, try_except. binds.
  destruct (similarity_search_lib F _ _ _ _); reflexivity.
Qed.

Lemma ask_chain_answers (question : string) (self : Agent V Mem F) :
  (exists answer, (ask question self).2 = Ok answer)
  /\ store F (ask question self).1 = store F self.
Proof.
  unfold ask_chain. destruct (chain _ _ _) as [memory' [response | e]]; cbn; eauto.
Qed.

(** X17: [get_response] never raises: whatever the store, the web search or the
    chain do, it returns a text; and it writes nothing: the in-memory
    store, the cache, the files and the clock are as before. *)
Theorem get_response_never_raises (query : string) (self : Agent V Mem F) :
  let run := respond query self in
  (exists answer, run.2 = Ok answer)
  /\ vector_store F (store F run.1) = vector_store F (store F self)
  /\ cache F (store F run.1) = cache F (store F self)
  /\ fs F (store F run.1) = fs F (store F self)
  /\ clock F (store F run.1) = clock F (store F self).
Proof.
  cbn zeta. unfold get_response, on_store. binds.
  rewrite similarity_search_run.
  destruct (similarity_search_lib F _ _ _ _) as [docs | e]; cbn.
  - unfold question_for. destruct (bool_decide (docs = [])); binds.
    + destruct (web_search query 5) as [web | e]; cbn; [| eauto 10].
      destruct (bool_decide (web = [])); cbn.
      all: match goal with |- context [ask ?q ?a] =>
             destruct (ask_chain_answers q a) as [[answer ->] ->] end; cbn; eauto 10.
    + match goal with |- context [ask ?q ?a] =>
        destruct (ask_chain_answers q a) as [[answer ->] ->] end; cbn; eauto 10.
  - unfold question_for. binds.
    destruct (web_search query 5) as [web | e']; cbn; [| eauto 10].
    destruct (bool_decide (web = [])); cbn.
    all: match goal with |- context [ask ?q ?a] =>
           destruct (ask_chain_answers q a) as [[answer ->] ->] end; cbn; eauto 10.
Qed.

(** X18: When the store has documents for the query, the chain is asked the
    query as typed and the web search plays no part: the outcome is the
    chain's, whatever the search provider would have returned or raised. *)
Theorem get_response_prefers_local_documents (query : string)
    (docs : list Document) (self : Agent V Mem F) :
  similarity_search_lib F (vector_store F (store F self)) query 4 None = Ok docs ->
  docs <> [] ->
  respond query self = ask query self.
Proof.
  intros Hdocs Hne. unfold get_response, on_store. binds.
  rewrite similarity_search_run, Hdocs. cbn.
  unfold question_for. rewrite bool_decide_eq_false_2 by exact Hne. cbn.
  destruct self; reflexivity.
Qed.

(** X19: When the store has nothing for the query, or its search fails (which
    the agent cannot tell apart), the web search decides: if it raises, the
    answer is the error text and the chain is not asked, so its memory is
    as before; if it finds nothing, the chain gets the query as typed;
    otherwise the chain gets the titles and snippets, one per line, ahead
    of the query. *)
Theorem get_response_falls_back_to_web (query : string) (self : Agent V Mem F) :
  match similarity_search_lib F (vector_store F (store F self)) query 4 None with
  | Ok docs => docs = []
  | Raise _ => True
  end ->
  let searched :=
    mkAgent F (similarity_search F query 4 None (store F self)).1 (memory F self) in
  respond query self
  = match web_search query 5 with
    | Raise e => (searched, Ok (error_answer e))
    | Ok [] => ask query searched
    | Ok web_results =>
        ask ("Context from web search: " +:+ web_context web_results
             +:+ newline +:+ "Question: " +:+ query) searched
    end.
Proof.
  intros Hnone. cbn zeta. unfold get_response, on_store. binds.
  rewrite similarity_search_run.
  destruct (similarity_search_lib F _ _ _ _) as [docs | e]; cbn.
  - subst docs. unfold question_for. cbn. binds.
    destruct (web_search query 5) as [[| r web] | e]; reflexivity.
  - unfold question_for. cbn. binds.
    destruct (web_search query 5) as [[| r web] | e']; reflexivity.
Qed.

(** X20: The agent's [add_documents] never raises and answers with a boolean
    that is true exactly when the store's [add_documents] returned; when it
    is false the failure was printed, and the store is left in the state
    the failed call reached. *)
Theorem agent_add_documents_reports_a_boolean (documents : list Document)
    (self : Agent V Mem F) :
  let run := RAGAgent.add_documents F sha256_hexdigest doc_processor persist_dir
               documents self in
  let inner := VectorStore.add_documents F sha256_hexdigest doc_processor
                 persist_dir documents (store F self) in
  memory F run.1 = memory F self
  /\ match inner.2 with
     | Ok _ => run.2 = Ok true /\ store F run.1 = inner.1
     | Raise e =>
         run.2 = Ok false
         /\ vector_store F (store F run.1) = vector_store F inner.1
         /\ cache F (store F run.1) = cache F inner.1
         /\ fs F (store F run.1) = fs F inner.1
         /\ trace F (store F run.1)
            = trace F inner.1 ++ [EvPrint ("Error adding documents: " +:+ exn_msg e)]
     end.
Proof.
  cbn zeta. unfold RAGAgent.add_documents, on_store, try_except. binds.
  destruct (VectorStore.add_documents F _ _ _ _ _) as [σ' [[] | e]]; cbn; auto 10.
Qed.

(** X21: A splitter failure reaches the user of the agent as [False] and one
    printed line in which the prefix appears twice, "Error adding
    documents: Error adding documents: Error chunking documents: ...";
    nothing else has happened to the store. *)
Theorem agent_add_documents_chunking_failure (documents : list Document)
    (e : exn) (self : Agent V Mem F) :
  DocumentProcessor.split_documents
    (DocumentProcessor.text_splitter doc_processor) documents = Raise e ->
  RAGAgent.add_documents F sha256_hexdigest doc_processor persist_dir documents self
  = (mkAgent F
       (mkState F (vector_store F (store F self)) (cache F (store F self))
          (fs F (store F self)) (clock F (store F self))
          (trace F (store F self)
           ++ [EvPrint ("Error adding documents: Error adding documents: "
                        +:+ "Error chunking documents: " +:+ exn_msg e)]))
       (memory F self),
     Ok false).
Proof.
  intros Hsplit.
  unfold RAGAgent.add_documents, on_store, try_except, VectorStore.add_documents.
  binds. rewrite (chunk_documents_raise _ _ _ _ Hsplit). reflexivity.
Qed.

End RAGAgentProperties.

(** ** Paths of the storage manager *)

Section PathlibProperties.
Import OS Pathlib.

Lemma split_on_cons (sep : Ascii.ascii) (s : string) :
  exists piece pieces, split_on sep s = piece :: pieces.
Proof.
  destruct s as [| c rest]; cbn; [eauto |].
  destruct (Ascii.eqb c sep); [eauto |].
  destruct (split_on sep rest); eauto.
Qed.

Lemma split_on_slash_free (s : string) :
  Forall (fun x => has_slash x = false) (split_on "/" s).
Proof.
  induction s as [| c rest IH]; cbn [split_on].
  - repeat constructor.
  - destruct (Ascii.eqb c "/") eqn:Hc.
    + constructor; [reflexivity | exact IH].
    + destruct (split_on "/" rest) as [| piece pieces].
      * constructor; [cbn; rewrite Hc; reflexivity | constructor].
      * apply Forall_cons in IH as [Hp Hps].
        constructor; [cbn; rewrite Hc, Hp; reflexivity | exact Hps].
Qed.

Lemma split_on_no_slash (s : string) :
  has_slash s = false -> split_on "/" s = [s].
Proof.
  induction s as [| c rest IH]; [reflexivity |].
  cbn [has_slash split_on]. intros [Hc Hrest]%orb_false_iff.
  rewrite Hc, (IH Hrest). reflexivity.
Qed.

Lemma split_on_app_slash (x rest : string) :
  has_slash x = false ->
  split_on "/" (x +:+ "/" +:+ rest) = x :: split_on "/" rest.
Proof.
  induction x as [| c x IH]; [reflexivity |].
  cbn [has_slash]. intros [Hc Hx]%orb_false_iff.
  rewrite append_cons. cbn [split_on]. rewrite Hc, (IH Hx). reflexivity.
Qed.

Lemma split_on_concat (t : list string) :
  Forall is_segment t -> t <> [] ->
  split_on "/" (String.concat "/" t) = t.
Proof.
  induction t as [| x t IH]; [contradiction |].
  intros [[_ Hx] Ht]%Forall_cons _.
  destruct t as [| y t].
  - cbn. apply split_on_no_slash, Hx.
  - change (String.concat "/" (x :: y :: t))
      with (x +:+ "/" +:+ String.concat "/" (y :: t)).
    rewrite (split_on_app_slash _ _ Hx), IH by (auto; discriminate).
    reflexivity.
Qed.

Lemma concat_segments_inj (t1 t2 : list string) :
  Forall is_segment t1 -> Forall is_segment t2 ->
  t1 <> [] -> t2 <> [] ->
  String.concat "/" t1 = String.concat "/" t2 -> t1 = t2.
Proof.
  intros H1 H2 Hn1 Hn2 Heq.
  rewrite <- (split_on_concat t1 H1 Hn1), <- (split_on_concat t2 H2 Hn2), Heq.
  reflexivity.
Qed.

Lemma concat_segments_nonempty (t : list string) :
  Forall is_segment t -> t <> [] -> String.concat "/" t <> "".
Proof.
  destruct t as [| x t]; [contradiction |].
  intros [[Hx _] _]%Forall_cons _.
  destruct x as [| c x]; [contradiction |].
  destruct t; [discriminate |].
  change (String.concat "/" (String c x :: s :: t))
    with (String c x +:+ "/" +:+ String.concat "/" (s :: t)).
  rewrite append_cons. discriminate.
Qed.

Lemma str_segments (r : string) (t : list string) :
  Forall is_segment t -> t <> [] ->
  str (mkPath r t) = r +:+ String.concat "/" t.
Proof.
  intros Ht Hne. unfold str. cbn [root tail].
  rewrite bool_decide_eq_false_2; [reflexivity |]. intros Heq.
  apply (concat_segments_nonempty t Ht Hne).
  destruct r; [exact Heq | rewrite append_cons in Heq; discriminate Heq].
Qed.

(** Two parsed paths with the same root print alike only if they have the
    same segments. *)
Lemma str_inj (r : string) (t1 t2 : list string) :
  Forall is_segment t1 -> Forall is_segment t2 ->
  t1 <> [] -> t2 <> [] ->
  str (mkPath r t1) = str (mkPath r t2) -> t1 = t2.
Proof.
  intros H1 H2 Hn1 Hn2.
  rewrite (str_segments r t1 H1 Hn1), (str_segments r t2 H2 Hn2).
  intros Heq%append_cancel. exact (concat_segments_inj t1 t2 H1 H2 Hn1 Hn2 Heq).
Qed.

Lemma segments_are_segments (rel : string) :
  Forall is_segment (segments rel).
Proof.
  unfold segments. pose proof (split_on_slash_free rel) as Hfree.
  induction Hfree as [| x xs Hx _ IH]; cbn [List.filter]; [constructor |].
  destruct (String.eqb_spec x ""); cbn [negb andb]; [exact IH |].
  destruct (negb (String.eqb x ".")); cbn; [| exact IH].
  constructor; [split; assumption | exact IH].
Qed.

Lemma Path_of_segments (s : string) :
  Forall is_segment (tail (Path_of s)).
Proof.
  unfold Path_of. destruct (splitroot s) as [r rel]. apply segments_are_segments.
Qed.

Lemma splitroot_relative (s : string) :
  has_slash s = false -> splitroot s = ("", s).
Proof.
  destruct s as [| c s]; [reflexivity |]. cbn [has_slash splitroot].
  intros [-> _]%orb_false_iff. reflexivity.
Qed.

(** A name without a slash is one segment, or none when it is empty or a
    dot. *)
Lemma Path_of_name (name : string) :
  has_slash name = false ->
  Path_of name
  = mkPath "" (if String.eqb name "" || String.eqb name "." then [] else [name]).
Proof.
  intros Hfree. unfold Path_of, segments.
  rewrite (splitroot_relative _ Hfree), (split_on_no_slash _ Hfree).
  cbn [List.filter].
  destruct (String.eqb name ""), (String.eqb name "."); reflexivity.
Qed.

Lemma Path_of_plain_name (name : string) :
  StorageManager.plain_name name = true -> Path_of name = mkPath "" [name].
Proof.
  unfold StorageManager.plain_name.
  intros [[[Hfree He]%andb_true_iff Hd]%andb_true_iff _]%andb_true_iff.
  rewrite (Path_of_name name) by (destruct (has_slash name); [discriminate | reflexivity]).
  destruct (String.eqb name ""); [discriminate |].
  destruct (String.eqb name "."); [discriminate |]. reflexivity.
Qed.

Lemma truediv_name (p : Path) (name : string) :
  has_slash name = false ->
  truediv p name = mkPath (root p) (tail p ++ tail (Path_of name)).
Proof.
  intros Hfree. unfold truediv. rewrite (Path_of_name name Hfree). reflexivity.
Qed.

Lemma truediv_segments (p : Path) (name : string) :
  has_slash name = false ->
  Forall is_segment (tail p) ->
  Forall is_segment (tail (truediv p name)).
Proof.
  intros Hfree Hp. rewrite (truediv_name p name Hfree). cbn [tail].
  apply Forall_app. split; [exact Hp | apply Path_of_segments].
Qed.

End PathlibProperties.

(** ** The documents of the storage manager *)

Section StorageManagerProperties.
Import OS Pathlib Files StorageManager.
Local Set Default Proof Using "Type".
Context {B : Type}.
Variable str_lower : string -> string.

Local Abbreviation ext := (file_extension str_lower).
Local Abbreviation save := (save_document (B := B) str_lower).
Local Abbreviation find_path := (get_document_path (B := B) str_lower).
Local Abbreviation remove := (delete_document (B := B) str_lower).

Lemma write_bytes_ok (p : Path) (content : B) (fs fs1 : FS B) :
  write_bytes p content fs = Ok fs1 ->
  fs1 = mkFS (<[str p := content]> (files fs)) (dirs fs) /\ str p ∉ dirs fs.
Proof.
  unfold write_bytes.
  destruct (bool_decide (tail p = [])); [discriminate |].
  destruct (bool_decide (str p ∈ dirs fs)) eqn:Hdir; [discriminate |].
  apply bool_decide_eq_false in Hdir. cbn [orb].
  destruct (_ || _); [intros [= <-]; auto |].
  destruct (bool_decide _); discriminate.
Qed.

Lemma save_document_ok (self : StorageManager.StorageManager) (content : B)
    (filename : string) (fs fs' : FS B) (p : Path) :
  save self content filename fs = (fs', Ok p) ->
  p = truediv (truediv (documents_dir self)
                 (if String.eqb (ext filename) "pdf" then "pdf" else "txt"))
        filename
  /\ fs' = mkFS (<[str p := content]> (files fs)) (dirs fs)
  /\ str p ∉ dirs fs.
Proof.
  unfold save_document, mbind, IO_bind, mret, IO_ret, StorageManager.os_call.
  destruct (write_bytes _ content fs) as [fs1 | e] eqn:Hwrite; [| discriminate].
  intros [= <- <-]. apply write_bytes_ok in Hwrite as [-> Hdir]. auto.
Qed.

(** X22: Round trip for the two extensions the manager knows.  A document
    saved under a name whose lower-cased extension is [pdf] or [txt] is
    found again by [get_document_path] at the path [save_document]
    returned, with the content that was written; [delete_document] then
    removes it and answers [True], after which it is not found. *)
Theorem saved_document_is_found_by_its_extension
    (self : StorageManager.StorageManager) (content : B) (filename : string)
    (fs fs' : FS B) (p : Path) :
  ext filename = "pdf" \/ ext filename = "txt" ->
  save self content filename fs = (fs', Ok p) ->
  let deleted := mkFS (base.delete (str p) (files fs')) (dirs fs') in
  files fs' !! str p = Some content
  /\ find_path self filename fs' = Some p
  /\ remove self filename fs' = (deleted, Ok true)
  /\ find_path self filename deleted = None.
Proof.
  intros Hext Hsave. cbn zeta.
  apply save_document_ok in Hsave as (Hp & -> & Hdir).
  assert (Hsame : truediv (truediv (documents_dir self) (ext filename)) filename = p).
  { rewrite Hp. destruct Hext as [-> | ->]; reflexivity. }
  assert (Hfile : (<[str p := content]> (files fs) : gmap string B) !! str p
                  = Some content) by apply lookup_insert_eq.
  cbn [files dirs]. split; [exact Hfile |].
  unfold get_document_path, delete_document, exists_, path_exists, unlink,
    mbind, IO_bind, mret, IO_ret, get_fs, StorageManager.os_call.
  rewrite Hsame. cbn [files dirs]. rewrite Hfile.
  rewrite (bool_decide_eq_true_2 (is_Some (Some content))) by eauto.
  cbn [orb files dirs]. rewrite !Hfile. cbn [files dirs].
  split; [reflexivity |]. split; [reflexivity |].
  rewrite lookup_delete_eq.
  rewrite (bool_decide_eq_false_2 (is_Some None)) by (intros [x Hx]; discriminate Hx).
  rewrite (bool_decide_eq_false_2 _ Hdir). reflexivity.
Qed.

Lemma attributes_documents_dir (base : string) :
  documents_dir (attributes base)
  = mkPath (root (Path_of base)) (tail (Path_of base) ++ ["documents"]).
Proof. reflexivity. Qed.

(** The path a plain file name gets under a directory of the documents
    directory. *)
Lemma document_path (base sub filename : string) :
  has_slash sub = false ->
  plain_name filename = true ->
  truediv (truediv (documents_dir (attributes base)) sub) filename
  = mkPath (root (Path_of base))
      ((tail (Path_of base) ++ ["documents"]) ++ tail (Path_of sub) ++ [filename])
  /\ Forall is_segment
       ((tail (Path_of base) ++ ["documents"]) ++ tail (Path_of sub) ++ [filename]).
Proof.
  intros Hsub Hplain. rewrite attributes_documents_dir.
  assert (Hfree : has_slash filename = false).
  { unfold plain_name in Hplain. destruct (has_slash filename); [discriminate | reflexivity]. }
  assert (Hname : is_segment filename).
  { split; [| exact Hfree]. intros ->. discriminate Hplain. }
  rewrite (truediv_name _ sub Hsub), (truediv_name _ filename Hfree).
  rewrite (Path_of_plain_name filename Hplain). cbn [root tail].
  rewrite <- app_assoc. split; [reflexivity |].
  rewrite !Forall_app. split; [split |]; [| | split].
  - apply Path_of_segments.
  - constructor; [split; [discriminate | reflexivity] | constructor].
  - apply Path_of_segments.
  - constructor; [exact Hname | constructor].
Qed.

(** X23: A document saved under any other extension is out of reach.  For
    a plain file name whose lower-cased extension is neither [pdf] nor
    [txt], [save_document] writes into the [txt] directory while
    [get_document_path] and [delete_document] look into a directory named
    after the extension: saving does not change what [get_document_path]
    answers, and [delete_document] leaves the saved file where it is. *)
Theorem saved_document_with_other_extension_is_not_found
    (base : string) (content : B) (filename : string) (fs fs' : FS B) (p : Path) :
  plain_name filename = true ->
  ext filename <> "pdf" ->
  ext filename <> "txt" ->
  has_slash (ext filename) = false ->
  save (attributes base) content filename fs = (fs', Ok p) ->
  p = truediv (truediv (documents_dir (attributes base)) "txt") filename
  /\ files fs' !! str p = Some content
  /\ find_path (attributes base) filename fs' = find_path (attributes base) filename fs
  /\ files (remove (attributes base) filename fs').1 !! str p = Some content.
Proof.
  intros Hplain Hpdf Htxt Hfree Hsave.
  apply save_document_ok in Hsave as (Hp & -> & Hdir).
  rewrite (proj2 (String.eqb_neq _ _) Hpdf) in Hp.
  destruct (document_path base "txt" filename eq_refl Hplain) as [Hsaved Hsegs].
  destruct (document_path base (ext filename) filename Hfree Hplain) as [Hsought Hsegq].
  set (q := truediv (truediv (documents_dir (attributes base)) (ext filename)) filename)
    in Hsought |- *.
  assert (Hne : str q <> str p).
  { rewrite Hp, Hsaved, Hsought. intros Heq.
    apply str_inj in Heq; [| assumption | assumption | |].
    - apply app_inv_head in Heq. rewrite (Path_of_name _ Hfree) in Heq.
      cbn [tail] in Heq.
      destruct (_ || _); [discriminate Heq |].
      injection Heq as Heq. exact (Htxt Heq).
    - intros H. apply app_eq_nil in H as [_ H]. apply app_eq_nil in H as [_ H].
      discriminate H.
    - intros H. apply app_eq_nil in H as [_ H]. discriminate H. }
  assert (Hfile : (<[str p := content]> (files fs) : gmap string B) !! str p
                  = Some content) by apply lookup_insert_eq.
  split; [exact Hp |]. cbn [files dirs]. split; [exact Hfile |].
  unfold get_document_path, delete_document, exists_, path_exists, unlink,
    mbind, IO_bind, mret, IO_ret, get_fs, StorageManager.os_call.
  fold q. cbn [files dirs].
  rewrite (lookup_insert_ne _ (str p) (str q)) by auto.
  split; [reflexivity |].
  destruct (_ || _); [| exact Hfile].
  cbn [files dirs]. rewrite (lookup_insert_ne _ (str p) (str q)) by auto.
  destruct (files fs !! str q); cbn [fst files].
  - rewrite lookup_delete_ne by auto. exact Hfile.
  - destruct (bool_decide _); exact Hfile.
Qed.



End StorageManagerProperties.

(** ** The further properties at concrete inputs *)

Section MoreRuns.
Import OS VectorStore Reference Examples Scenarios.

(** [square(3)] is computed once and served from the cache afterwards. *)
Lemma memoize_serves_the_stored_value_witness :
  (Memoize.wrapper str_args str_kwargs
     (Memoize.wrapper str_args str_kwargs Cache.init square 3 100 101).1
     square 3 200 201).2
  = Ok (Some 9).
Proof.
  destruct (memoize_serves_the_stored_value str_args str_kwargs Cache.init
              square square 3 3 9 100 101 200 201) as [_ Hagain].
  - reflexivity.
  - reflexivity.
  - reflexivity.
  - reflexivity.
  - rewrite Hagain. reflexivity.
Defined.

(** A [lookup] that found nothing is asked again at the next call. *)
Lemma memoize_recomputes_none_and_expired_witness :
  (Memoize.wrapper str_args str_kwargs
     (Memoize.wrapper str_args str_kwargs Cache.init lookup_nothing 3 100 101).1
     lookup_found 3 200 201).2
  = Ok (Some 3).
Proof.
  destruct (memoize_recomputes_none_and_expired str_args str_kwargs Cache.init
              lookup_nothing lookup_found 3 100 101 200 201)
    as (_ & Hagain & _).
  - reflexivity.
  - reflexivity.
  - rewrite (Hagain 3) by reflexivity. reflexivity.
Defined.


(** Asking for no result gives none, though two hits are Kenyan. *)
Lemma search_without_quota_is_empty_witness :
  KenyanWebSearch.search netloc lower provider "kenya revenue" 0 = Ok [].
Proof.
  apply (search_without_quota_is_empty netloc lower provider "kenya revenue" 0
           provider_hits).
  - lia.
  - reflexivity.
  - repeat constructor; vm_compute; eauto.
Defined.

(** A hit that carries [href] instead of [link] stops the search. *)
Lemma search_raises_on_hit_without_link_witness :
  KenyanWebSearch.search netloc lower href_provider "kenya revenue" 5
  = Raise (PyExc "KeyError" "'link'").
Proof.
  apply (search_raises_on_hit_without_link netloc lower href_provider
           "kenya revenue" 5 []
           []
           {["title" := "KRA"; "href" := "https://www.kra.go.ke/"; "body" := "Tax"]}).
  - reflexivity.
  - constructor.
  - vm_compute. reflexivity.
Defined.

(** The files are written anew after a backup; the restore brings the
    first version back. *)
Lemma backup_then_restore_round_trip_witness :
  files (fs _ (restore_backup (ListFaiss no_faults) persist_dir "20240101_120000"
                 (rewritten backed_up)).1)
  !! "data/vector_store/faiss_index" = Some (Bytes "index-v1")
  /\ files (fs _ (rewritten backed_up)) !! "data/vector_store/faiss_index"
     = Some (Bytes "index-v2").
Proof.
  destruct (backup_then_restore_round_trip (ListFaiss no_faults) persist_dir
              (persisted_state no_faults) backed_up (rewritten backed_up)
              "Backup created at data/vector_store/backups/backup_20240101_120000"
              "20240101_120000")
    as (Hidx & _).
  - reflexivity.
  - vm_compute. reflexivity.
  - unfold backed_up. apply run_ok. vm_compute. reflexivity.
  - vm_compute. reflexivity.
  - vm_compute. reflexivity.
  - vm_compute. reflexivity.
  - intros H. vm_compute in H. discriminate H.
  - intros H. vm_compute in H. discriminate H.
  - split; [| vm_compute; reflexivity].
    etransitivity; [exact Hidx |]. vm_compute. reflexivity.
Defined.

(** The restored files are not in the library's format: the restore says
    it succeeded and the store in memory is the initialization one. *)
Lemma restore_backup_reloads_or_starts_over_witness :
  (restore_backup (ListFaiss no_faults) persist_dir "20240101_120000"
     (rewritten backed_up)).2
  = Ok "Restored from backup 20240101_120000"
  /\ vector_store _ (restore_backup (ListFaiss no_faults) persist_dir
                       "20240101_120000" (rewritten backed_up)).1
     = dummy_table.
Proof.
  assert (Hload :
    load_local (ListFaiss no_faults) persist_dir
      (Restore.with_persist_dir persist_dir
         (fs _ (Restore.restored_files (ListFaiss no_faults) persist_dir
                  "20240101_120000" (Bytes "index-v1") (Bytes "store-v1")
                  (rewritten backed_up))))
    = Raise (PyExc "RuntimeError" "could not read the saved index"))
    by (vm_compute; reflexivity).
  pose proof (restore_backup_reloads_or_starts_over (ListFaiss no_faults)
                persist_dir "20240101_120000" (Bytes "index-v1") (Bytes "store-v1")
                (rewritten backed_up)) as H.
  cbv zeta in H. rewrite Hload in H.
  change (from_texts (ListFaiss no_faults) ["initialization document"]
            [{["source" := VStr "initialization"]}])
    with (Ok dummy_table : result Table) in H.
  destruct H as (Hrun & Hstore & _).
  - vm_compute. reflexivity.
  - vm_compute. reflexivity.
  - vm_compute. reflexivity.
  - intros H. vm_compute in H. discriminate H.
  - intros H. vm_compute in H. discriminate H.
  - vm_compute. reflexivity.
  - split; [exact Hrun | exact Hstore].
Defined.

(** No backup was ever taken at that instant. *)
Lemma restore_backup_without_index_changes_nothing_witness :
  restore_backup (ListFaiss no_faults) persist_dir "19990101_000000"
    (persisted_state no_faults)
  = (persisted_state no_faults, Ok "Backup 19990101_000000 not found").
Proof.
  pose proof (restore_backup_without_index_changes_nothing (ListFaiss no_faults)
                persist_dir "19990101_000000" (persisted_state no_faults)) as H.
  assert (Hdir : path_exists (backup_path persist_dir "19990101_000000")
                   (fs _ (persisted_state no_faults)) = false)
    by (vm_compute; reflexivity).
  rewrite Hdir in H. apply H. vm_compute. reflexivity.
Defined.

(** The backup lacks its store file: the live index is the old one again,
    the live store file is not. *)
Lemma restore_backup_stops_half_way_witness :
  exists e,
    (restore_backup (ListFaiss no_faults) persist_dir "20240101_120000" half_backup).2
    = Raise e
    /\ exn_class e = "FileNotFoundError"
    /\ files (fs _ (restore_backup (ListFaiss no_faults) persist_dir
                      "20240101_120000" half_backup).1)
       !! "data/vector_store/faiss_index" = Some (Bytes "index-v1")
    /\ files (fs _ (restore_backup (ListFaiss no_faults) persist_dir
                      "20240101_120000" half_backup).1)
       !! "data/vector_store/store.pkl" = Some (Bytes "store-v2").
Proof.
  destruct (restore_backup_stops_half_way (ListFaiss no_faults) persist_dir
              "20240101_120000" (Bytes "index-v1") half_backup)
    as (e & Hrun & Hclass).
  - vm_compute. reflexivity.
  - vm_compute. reflexivity.
  - vm_compute. reflexivity.
  - intros H. vm_compute in H. discriminate H.
  - exists e. rewrite Hrun. cbn [fst snd].
    split; [reflexivity |]. split; [exact Hclass |].
    split; vm_compute; reflexivity.
Defined.

(** Two backups within one second: the backup holds the second version. *)
Lemma second_backup_replaces_first_witness :
  files (fs _ backed_up)
  !! "data/vector_store/backups/backup_20240101_120000/faiss_index"
  = Some (Bytes "index-v1")
  /\ files (fs _ (create_backup (ListFaiss no_faults) persist_dir
                    (rewritten backed_up)).1)
     !! "data/vector_store/backups/backup_20240101_120000/faiss_index"
     = Some (Bytes "index-v2").
Proof.
  destruct (second_backup_replaces_first (ListFaiss no_faults) persist_dir
              (persisted_state no_faults) backed_up (rewritten backed_up)
              (create_backup (ListFaiss no_faults) persist_dir
                 (rewritten backed_up)).1
              "Backup created at data/vector_store/backups/backup_20240101_120000"
              "Backup created at data/vector_store/backups/backup_20240101_120000"
              "20240101_120000")
    as (_ & _ & Hsecond & _).
  - reflexivity.
  - vm_compute. reflexivity.
  - unfold backed_up. apply run_ok. vm_compute. reflexivity.
  - reflexivity.
  - vm_compute. reflexivity.
  - apply run_ok. vm_compute. reflexivity.
  - split; [vm_compute; reflexivity |].
    etransitivity; [exact Hsecond |]. vm_compute. reflexivity.
Defined.

(** The splitter rejects its configuration. *)
Lemma add_documents_chunking_failure_witness :
  add_documents (ListFaiss no_faults) digest failing_processor persist_dir
    [nairobi] (fresh_state no_faults)
  = (fresh_state no_faults,
     Raise (PyExc "Exception"
              "Error adding documents: Error chunking documents: chunk overlap too large")).
Proof.
  exact (add_documents_chunking_failure (ListFaiss no_faults) digest
           failing_processor persist_dir [nairobi]
           (PyExc "ValueError" "chunk overlap too large")
           (fresh_state no_faults) eq_refl).
Defined.

(** The store has a document for the query: the chain gets the query. *)
Lemma get_response_prefers_local_documents_witness :
  RAGAgent.memory _ (RAGAgent.get_response (ListFaiss no_faults) netloc lower provider
              echo_chain "capital" agent).1
  = ["capital"].
Proof.
  rewrite (get_response_prefers_local_documents (ListFaiss no_faults) netloc
             lower provider echo_chain "capital" [dummy_document] agent).
  - reflexivity.
  - vm_compute. reflexivity.
  - discriminate.
Defined.

(** The store has no rows: the chain gets the two Kenyan hits ahead of the
    query. *)
Lemma get_response_falls_back_to_web_witness :
  RAGAgent.memory _ (RAGAgent.get_response (ListFaiss no_faults) netloc lower provider
              echo_chain "kenya revenue" empty_agent).1
  = ["Context from web search: KRA: Tax services" +:+ RAGAgent.newline
     +:+ "UoN: University of Nairobi" +:+ RAGAgent.newline
     +:+ "Question: kenya revenue"].
Proof.
  rewrite (get_response_falls_back_to_web (ListFaiss no_faults) netloc lower
             provider echo_chain "kenya revenue" empty_agent).
  - vm_compute. reflexivity.
  - vm_compute. reflexivity.
Defined.

(** The agent over the failing splitter answers [False]. *)
Lemma agent_add_documents_chunking_failure_witness :
  (RAGAgent.add_documents (ListFaiss no_faults) digest failing_processor
     persist_dir [nairobi] agent).2
  = Ok false.
Proof.
  rewrite (agent_add_documents_chunking_failure (ListFaiss no_faults) digest
             failing_processor persist_dir [nairobi]
             (PyExc "ValueError" "chunk overlap too large") agent eq_refl).
  reflexivity.
Defined.

End MoreRuns.

(** ** The storage manager at concrete uploads *)

Section UploadRuns.
Import OS Pathlib Reference Uploads.

(** [Report.PDF] goes to the [pdf] directory and is found there. *)
Lemma saved_document_is_found_by_its_extension_witness :
  StorageManager.get_document_path lower manager "Report.PDF" saved_report.1
  = Some (mkPath "" ["data"; "documents"; "pdf"; "Report.PDF"])
  /\ str (mkPath "" ["data"; "documents"; "pdf"; "Report.PDF"])
     = "data/documents/pdf/Report.PDF".
Proof.
  destruct (saved_document_is_found_by_its_extension lower manager
              (Bytes "%PDF-1.7") "Report.PDF" ready saved_report.1
              (mkPath "" ["data"; "documents"; "pdf"; "Report.PDF"]))
    as (_ & Hfound & _).
  - left. vm_compute. reflexivity.
  - unfold saved_report. apply run_ok. vm_compute. reflexivity.
  - split; [exact Hfound | reflexivity].
Defined.

(** [notes.md] is written to the [txt] directory and looked for in a
    directory [md]. *)
Lemma saved_document_with_other_extension_is_not_found_witness :
  StorageManager.get_document_path lower manager "notes.md" saved_notes.1 = None
  /\ files saved_notes.1 !! "data/documents/txt/notes.md" = Some (Bytes "# notes").
Proof.
  destruct (saved_document_with_other_extension_is_not_found lower "data"
              (Bytes "# notes") "notes.md" ready saved_notes.1
              (mkPath "" ["data"; "documents"; "txt"; "notes.md"]))
    as (_ & Hfile & Hfind & _).
  - reflexivity.
  - vm_compute. discriminate.
  - vm_compute. discriminate.
  - vm_compute. reflexivity.
  - unfold saved_notes. apply run_ok. vm_compute. reflexivity.
  - split; [| exact Hfile].
    etransitivity; [exact Hfind |]. vm_compute. reflexivity.
Defined.


End UploadRuns.
